(** * Smart Food Analyzer (vision1.py): rule engine, goal extraction,
      nutrition lookup, sentiment bucketing and the feedback store.

    The Python functions of [vision1.py] are embedded as Rocq functions.
    Dictionaries are [gmap string pyval]; code that can raise returns a
    [result]; calls into other packages ([str.lower], [str.title],
    [requests.post], TextBlob's polarity, pandas' CSV codec) are section
    variables; what a proof needs of them is a section hypothesis. *)

From Stdlib Require Import QArith Ascii String.
From stdpp Require Import gmap strings list fin_maps.

Local Open Scope string_scope.

(** ** Python values *)

(** The values that flow through the program: JSON data of the nutrition
    service, the nutrition dictionary and the health-goal flags. Numbers
    ([int] and finite [float]) are rationals; the program only compares
    them with integer constants, which Python does exactly. *)
#[warnings="-register-all"]
Inductive pyval : Type :=
  | PNone
  | PBool (b : bool)
  | PNum (q : Q)
  | PStr (s : string)
  | PList (l : list pyval)
  | PDict (d : gmap string pyval).

(** Exceptions the embedded code can raise. *)
Inductive exn : Type :=
  | TypeError
  | KeyError
  | IndexError
  | AttributeError.

Inductive result (A : Type) : Type :=
  | Ok (a : A)
  | Raise (e : exn).
Arguments Ok {A} a.
Arguments Raise {A} e.

#[global] Instance result_ret : MRet result := fun A a => Ok a.
#[global] Instance result_bind : MBind result := fun A B f r =>
  match r with
  | Ok a => f a
  | Raise e => Raise e
  end.

(** [q > t] on numbers. *)
Definition Qgtb (q t : Q) : bool :=
  match (q ?= t)%Q with
  | Gt => true
  | _ => false
  end.

(** [q < t] on numbers. *)
Definition Qltb (q t : Q) : bool := Qgtb t q.

(** [bool(v)]: Python truthiness. *)
Definition truthy (v : pyval) : bool :=
  match v with
  | PNone => false
  | PBool b => b
  | PNum q => negb (Qeq_bool q 0)
  | PStr s => negb (String.eqb s "")
  | PList l => match l with [] => false | _ => true end
  | PDict d => negb (bool_decide (d = ∅))
  end.

(** [d.get(k)]: the value, or [None] for a missing key. *)
Definition py_get (d : gmap string pyval) (k : string) : pyval :=
  default PNone (d !! k).

(** [a or b]. *)
Definition py_or (a b : pyval) : pyval :=
  if truthy a then a else b.

(** [a > t] for an integer constant [t]: numbers compare ([bool] is an
    [int]); any other operand raises [TypeError]. *)
Definition py_gt (a : pyval) (t : Q) : result bool :=
  match a with
  | PNum q => Ok (Qgtb q t)
  | PBool b => Ok (Qgtb (if b then 1 else 0) t)
  | _ => Raise TypeError
  end.

(** ** give_recommendations *)

Definition msg_calories : string := "⚠️ High in calories.".
Definition msg_calories_weight_loss : string :=
  " Try to limit this if you're trying to lose weight.".
Definition msg_sweetness : string := "🍬 High sweetness level.".
Definition msg_sweetness_diabetes : string :=
  " This may spike blood sugar — go for lower glycemic index foods.".
Definition msg_sweetness_moderate : string :=
  " Consume moderately to avoid sugar crashes.".
Definition msg_sodium : string := "🧂 Very salty!".
Definition msg_sodium_high_bp : string :=
  " High sodium may increase blood pressure — consider low-sodium alternatives.".
Definition msg_protein : string :=
  "💪 Good protein source — helpful for muscle maintenance.".
Definition msg_fat : string :=
  "⚡ High in fat — consume moderately if aiming for weight control.".
Definition msg_cholesterol : string :=
  "🫀 High cholesterol content — reduce intake for heart health.".
Definition msg_potassium : string :=
  "🍌 Good potassium source — helps with muscle function and blood pressure regulation.".
Definition msg_carbs : string :=
  "🥖 High in carbs — if you're watching carbs (e.g., keto diet), consider alternatives.".
Definition msg_balanced : string :=
  "✅ Balanced food. Looks like a healthy option!".

(** [health_goals or {}], with [None] for the omitted argument. *)
Definition goals_or_empty (health_goals : option (gmap string pyval))
  : gmap string pyval :=
  default ∅ health_goals.

Definition give_recommendations
    (nutrition : gmap string pyval)
    (health_goals : option (gmap string pyval)) : result (list string) :=
  let advice : list string := [] in
  let health_goals := goals_or_empty health_goals in
  let calories := py_or (py_get nutrition "Calories") (PNum 0) in
  let sweetness := py_or (py_get nutrition "Sweetness (g)") (PNum 0) in
  let sodium := py_or (py_get nutrition "Sodium (mg)") (PNum 0) in
  let protein := py_or (py_get nutrition "Proteins (g)") (PNum 0) in
  let fat := py_or (py_get nutrition "Total Fat (g)") (PNum 0) in
  let cholesterol := py_or (py_get nutrition "Cholesterol (mg)") (PNum 0) in
  let potassium := py_or (py_get nutrition "Potassium (mg)") (PNum 0) in
  let carbs := py_or (py_get nutrition "Total Carbohydrates (g)") (PNum 0) in
  c ← py_gt calories 500;
  let advice :=
    if c : bool then
      let msg := msg_calories in
      let msg :=
        if truthy (py_get health_goals "weight_loss")
        then msg +:+ msg_calories_weight_loss else msg in
      (advice ++ [msg])%list
    else advice in
  c ← py_gt sweetness 20;
  let advice :=
    if c : bool then
      let msg := msg_sweetness in
      let msg :=
        if truthy (py_get health_goals "diabetes")
        then msg +:+ msg_sweetness_diabetes
        else msg +:+ msg_sweetness_moderate in
      (advice ++ [msg])%list
    else advice in
  c ← py_gt sodium 1500;
  let advice :=
    if c : bool then
      let msg := msg_sodium in
      let msg :=
        if truthy (py_get health_goals "high_bp")
        then msg +:+ msg_sodium_high_bp else msg in
      (advice ++ [msg])%list
    else advice in
  c ← py_gt protein 15;
  let advice := if c : bool then (advice ++ [msg_protein])%list else advice in
  c ← py_gt fat 20;
  let advice := if c : bool then (advice ++ [msg_fat])%list else advice in
  c ← py_gt cholesterol 200;
  let advice := if c : bool then (advice ++ [msg_cholesterol])%list else advice in
  c ← (if truthy potassium then py_gt potassium 400 else Ok false);
  let advice := if c : bool then (advice ++ [msg_potassium])%list else advice in
  c ← py_gt carbs 50;
  let advice := if c : bool then (advice ++ [msg_carbs])%list else advice in
  let advice :=
    match advice with
    | [] => (advice ++ [msg_balanced])%list
    | _ => advice
    end in
  Ok advice.

(** The variant with the uniform rule shape: rule 7 is the plain strict
    comparison [potassium > 400], like the other seven rules. *)
Definition give_recommendations_uniform
    (nutrition : gmap string pyval)
    (health_goals : option (gmap string pyval)) : result (list string) :=
  let advice : list string := [] in
  let health_goals := goals_or_empty health_goals in
  let calories := py_or (py_get nutrition "Calories") (PNum 0) in
  let sweetness := py_or (py_get nutrition "Sweetness (g)") (PNum 0) in
  let sodium := py_or (py_get nutrition "Sodium (mg)") (PNum 0) in
  let protein := py_or (py_get nutrition "Proteins (g)") (PNum 0) in
  let fat := py_or (py_get nutrition "Total Fat (g)") (PNum 0) in
  let cholesterol := py_or (py_get nutrition "Cholesterol (mg)") (PNum 0) in
  let potassium := py_or (py_get nutrition "Potassium (mg)") (PNum 0) in
  let carbs := py_or (py_get nutrition "Total Carbohydrates (g)") (PNum 0) in
  c ← py_gt calories 500;
  let advice :=
    if c : bool then
      let msg := msg_calories in
      let msg :=
        if truthy (py_get health_goals "weight_loss")
        then msg +:+ msg_calories_weight_loss else msg in
      (advice ++ [msg])%list
    else advice in
  c ← py_gt sweetness 20;
  let advice :=
    if c : bool then
      let msg := msg_sweetness in
      let msg :=
        if truthy (py_get health_goals "diabetes")
        then msg +:+ msg_sweetness_diabetes
        else msg +:+ msg_sweetness_moderate in
      (advice ++ [msg])%list
    else advice in
  c ← py_gt sodium 1500;
  let advice :=
    if c : bool then
      let msg := msg_sodium in
      let msg :=
        if truthy (py_get health_goals "high_bp")
        then msg +:+ msg_sodium_high_bp else msg in
      (advice ++ [msg])%list
    else advice in
  c ← py_gt protein 15;
  let advice := if c : bool then (advice ++ [msg_protein])%list else advice in
  c ← py_gt fat 20;
  let advice := if c : bool then (advice ++ [msg_fat])%list else advice in
  c ← py_gt cholesterol 200;
  let advice := if c : bool then (advice ++ [msg_cholesterol])%list else advice in
  c ← py_gt potassium 400;
  let advice := if c : bool then (advice ++ [msg_potassium])%list else advice in
  c ← py_gt carbs 50;
  let advice := if c : bool then (advice ++ [msg_carbs])%list else advice in
  let advice :=
    match advice with
    | [] => (advice ++ [msg_balanced])%list
    | _ => advice
    end in
  Ok advice.

(** ** The rule table of the recommendation engine *)

Inductive rule : Type :=
  | RCalories | RSweetness | RSodium | RProtein
  | RFat | RCholesterol | RPotassium | RCarbs.

#[global] Instance rule_eq_dec : EqDecision rule.
Proof. solve_decision. Defined.

(** Table order. *)
Definition all_rules : list rule :=
  [RCalories; RSweetness; RSodium; RProtein;
   RFat; RCholesterol; RPotassium; RCarbs].

Definition rule_key (r : rule) : string :=
  match r with
  | RCalories => "Calories"
  | RSweetness => "Sweetness (g)"
  | RSodium => "Sodium (mg)"
  | RProtein => "Proteins (g)"
  | RFat => "Total Fat (g)"
  | RCholesterol => "Cholesterol (mg)"
  | RPotassium => "Potassium (mg)"
  | RCarbs => "Total Carbohydrates (g)"
  end.

Definition rule_threshold (r : rule) : Q :=
  match r with
  | RCalories => 500
  | RSweetness => 20
  | RSodium => 1500
  | RProtein => 15
  | RFat => 20
  | RCholesterol => 200
  | RPotassium => 400
  | RCarbs => 50
  end.

(** The message a rule contributes under the given flags. *)
Definition rule_message (goals : gmap string pyval) (r : rule) : string :=
  match r with
  | RCalories =>
      if truthy (py_get goals "weight_loss")
      then msg_calories +:+ msg_calories_weight_loss else msg_calories
  | RSweetness =>
      if truthy (py_get goals "diabetes")
      then msg_sweetness +:+ msg_sweetness_diabetes
      else msg_sweetness +:+ msg_sweetness_moderate
  | RSodium =>
      if truthy (py_get goals "high_bp")
      then msg_sodium +:+ msg_sodium_high_bp else msg_sodium
  | RProtein => msg_protein
  | RFat => msg_fat
  | RCholesterol => msg_cholesterol
  | RPotassium => msg_potassium
  | RCarbs => msg_carbs
  end.

(** Every message a rule can contribute, whatever the flags. *)
Definition rule_variants (r : rule) : list string :=
  match r with
  | RCalories => [msg_calories; msg_calories +:+ msg_calories_weight_loss]
  | RSweetness => [msg_sweetness +:+ msg_sweetness_diabetes;
                   msg_sweetness +:+ msg_sweetness_moderate]
  | RSodium => [msg_sodium; msg_sodium +:+ msg_sodium_high_bp]
  | RProtein => [msg_protein]
  | RFat => [msg_fat]
  | RCholesterol => [msg_cholesterol]
  | RPotassium => [msg_potassium]
  | RCarbs => [msg_carbs]
  end.

(** A rule fires in an advisory list when one of its messages is there. *)
Definition fires (r : rule) (advice : list string) : Prop :=
  ∃ m, m ∈ rule_variants r ∧ m ∈ advice.

(** The number a value stands for in a comparison, if it is one. *)
Definition as_num (v : pyval) : option Q :=
  match v with
  | PNum q => Some q
  | PBool b => Some (if b then 1 else 0)%Q
  | _ => None
  end.

(** The field a rule reads, after [... or 0]. *)
Definition field (nutrition : gmap string pyval) (r : rule) : pyval :=
  py_or (py_get nutrition (rule_key r)) (PNum 0).

(** A nutrition record: each of the eight fields is absent, [None] or a
    number (a [bool] counting as the [int] it is). *)
Definition numeric (nutrition : gmap string pyval) : bool :=
  forallb (λ r, bool_decide (is_Some (as_num (field nutrition r)))) all_rules.

Definition field_num (nutrition : gmap string pyval) (r : rule) : Q :=
  default 0%Q (as_num (field nutrition r)).

(** The condition column of the table: [field > threshold], an absent
    field counting as 0. *)
Definition rule_holds (nutrition : gmap string pyval) (r : rule) : bool :=
  Qgtb (field_num nutrition r) (rule_threshold r).

(** The advisory list the table prescribes: the messages of the rules
    that hold, in table order, or the fallback when none holds. *)
Definition table_advice (holds : rule → bool) (goals : gmap string pyval)
  : list string :=
  match List.filter holds all_rules with
  | [] => [msg_balanced]
  | fired => map (rule_message goals) fired
  end.

Definition scenario_nutrition : gmap string pyval :=
  <["Calories" := PNum 600]>
  (<["Sweetness (g)" := PNum 25]>
  (<["Sodium (mg)" := PNum 1600]>
  (<["Proteins (g)" := PNum 5]>
  (<["Total Fat (g)" := PNum 10]>
  (<["Cholesterol (mg)" := PNum 50]>
  (<["Potassium (mg)" := PNum 100]>
  (<["Total Carbohydrates (g)" := PNum 20]> ∅))))))).

Definition scenario_goals : gmap string pyval :=
  <["diabetes" := PBool true]>
  (<["weight_loss" := PBool true]>
  (<["high_bp" := PBool true]> ∅)).

(** ** Strings *)

(** [sub in s] on strings: [sub] occurs in [s] as a substring. *)
Fixpoint str_in (sub s : string) : bool :=
  String.prefix sub s ||
  match s with
  | EmptyString => false
  | String _ s' => str_in sub s'
  end.

(** [sub] occurs in [s]: [s] is some text, [sub], some text. *)
Definition occurs (sub s : string) : Prop :=
  ∃ pre post, s = pre +:+ sub +:+ post.

(** What [str.lower] does on ASCII text: [A]-[Z] go to [a]-[z], every
    other character stays. *)
Definition ascii_lower (c : ascii) : ascii :=
  let n := N_of_ascii c in
  if ((65 <=? n) && (n <=? 90))%N then ascii_of_N (n + 32) else c.

Fixpoint lower_ascii (s : string) : string :=
  match s with
  | EmptyString => EmptyString
  | String c s' => String (ascii_lower c) (lower_ascii s')
  end.

Fixpoint is_ascii (s : string) : bool :=
  match s with
  | EmptyString => true
  | String c s' => (N_of_ascii c <? 128)%N && is_ascii s'
  end.

(** ** The feedback table *)

(** A cell of the feedback table: text or an integer. *)
Inductive cell : Type :=
  | CStr (s : string)
  | CInt (z : Z).

#[global] Instance cell_eq_dec : EqDecision cell.
Proof. solve_decision. Defined.

(** A pandas [DataFrame]: the column labels in order, and the rows in
    index order. A row maps a column to its cell; a column the row has
    no cell for is [NaN]. The index is the position in [rows], which is
    what [ignore_index=True] and [index=False] leave of it. *)
Record DataFrame : Type := mkDataFrame {
  columns : list string;
  rows : list (gmap string cell)
}.

(** [pd.DataFrame(records)] for a list of dictionaries, each given with
    its keys in insertion order. *)
Definition pd_DataFrame (records : list (list (string * cell))) : DataFrame :=
  {| columns := remove_dups (records ≫= map fst);
     rows := map list_to_map records |}.

(** [pd.concat([a, b], ignore_index=True)]: the columns of [a], then
    those of [b] that [a] lacks; the rows of [a], then those of [b]. *)
Definition pd_concat (a b : DataFrame) : DataFrame :=
  {| columns := columns a ++ List.filter (λ c, bool_decide (c ∉ columns a)) (columns b);
     rows := rows a ++ rows b |}.

(** [df[c]]: the column, or [KeyError]. *)
Definition df_getitem (df : DataFrame) (c : string) : result (list (option cell)) :=
  if bool_decide (c ∈ columns df)
  then Ok (map (λ r : gmap string cell, r !! c) (rows df))
  else Raise KeyError.

Definition count_cell (v : cell) (vals : list cell) : nat :=
  length (List.filter (λ x, bool_decide (x = v)) vals).

(** [series.value_counts()]: every distinct value that is not [NaN],
    with the number of its occurrences. The order of the result (by
    falling count) is left out: it is read only by label. *)
Definition value_counts (col : list (option cell)) : list (cell * nat) :=
  let vals := omap id col in
  map (λ v, (v, count_cell v vals)) (remove_dups vals).

(** [counts.get(label)]. *)
Fixpoint series_get (counts : list (cell * nat)) (label : cell) : option nat :=
  match counts with
  | [] => None
  | (v, n) :: counts' => if bool_decide (v = label) then Some n else series_get counts' label
  end.


(** One submission of the feedback form. *)
Record entry : Type := mkEntry {
  e_name : string;
  e_age : Z;
  e_satisfaction : Z;
  e_comment : string
}.

Definition schema : list string :=
  ["Name"; "Age"; "Satisfaction"; "Comment"; "Sentiment"].

(** ** The nutrition service *)

Record response : Type := mkResponse {
  status_code : Z;
  json : result pyval
}.

(** [k in data] for a string [k]. *)
Definition py_in (k : string) (data : pyval) : result bool :=
  match data with
  | PDict d => Ok (bool_decide (is_Some (d !! k)))
  | PList l =>
      Ok (existsb (λ x, match x with PStr s => String.eqb s k | _ => false end) l)
  | PStr s => Ok (str_in k s)
  | _ => Raise TypeError
  end.

(** [data[k]] for a string [k]. *)
Definition py_getitem (data : pyval) (k : string) : result pyval :=
  match data with
  | PDict d => match d !! k with Some v => Ok v | None => Raise KeyError end
  | _ => Raise TypeError
  end.

(** [v[0]]. JSON dictionaries have string keys only, so [0] is never a
    key of one. *)
Definition py_getitem0 (v : pyval) : result pyval :=
  match v with
  | PList l => match l with x :: _ => Ok x | [] => Raise IndexError end
  | PStr s =>
      match s with
      | String c _ => Ok (PStr (String c EmptyString))
      | EmptyString => Raise IndexError
      end
  | PDict _ => Raise KeyError
  | _ => Raise TypeError
  end.

(** ** From the service's fields to the rules *)

(** The field of the nutrition service that ends up under a rule's key
    in the dictionary [get_nutrition_info] returns. *)
Definition nf_key (r : rule) : string :=
  match r with
  | RCalories => "nf_calories"
  | RSweetness => "nf_sugars"
  | RSodium => "nf_sodium"
  | RProtein => "nf_protein"
  | RFat => "nf_total_fat"
  | RCholesterol => "nf_cholesterol"
  | RPotassium => "nf_potassium"
  | RCarbs => "nf_total_carbohydrate"
  end.

(** The service's field, read the way a rule reads it. *)
Definition nf_field (food : gmap string pyval) (r : rule) : pyval :=
  py_or (py_get food (nf_key r)) (PNum 0).

(** The keys of the dictionary [get_nutrition_info] returns. *)
Definition record_keys : gset string :=
  list_to_set
    ["Food"; "Calories"; "Proteins (g)"; "Sweetness (g)"; "Sodium (mg)";
     "Total Fat (g)"; "Cholesterol (mg)"; "Potassium (mg)";
     "Total Carbohydrates (g)"].

(** The keywords [extract_health_goals] looks for under each of its
    keys. *)
Definition keywords (k : string) : list string :=
  if String.eqb k "diabetes" then ["diabetes"]
  else if String.eqb k "weight_loss" then ["weight loss"; "losing weight"]
  else if String.eqb k "high_bp" then ["blood pressure"; "bp"; "hypertension"]
  else [].

(** What the feedback page puts on the screen after the form. *)
Inductive ui : Type :=
  | st_success (text : string)
  | st_balloons
  | st_toast (text : string)
  | st_error (text : string)
  | st_info (text : string)
  | st_pie (counts : list (cell * nat)).

(** ** What pandas does to a table on the way through the file *)

(** The three labels [analyze_sentiment] gives. *)
Definition sentiment_labels : list string :=
  ["😊 Positive"; "😔 Negative"; "😐 Neutral"].

(** The texts that [pd.read_csv] takes for a missing value when it is
    called without [na_values] or [keep_default_na], as [save_feedback]
    and [show_sentiment_graph] call it. *)
Definition na_values : list string :=
  [""; "#N/A"; "#N/A N/A"; "#NA"; "-1.#IND"; "-1.#QNAN"; "-NaN"; "-nan";
   "1.#IND"; "1.#QNAN"; "<NA>"; "N/A"; "NA"; "NULL"; "NaN"; "None";
   "n/a"; "nan"; "null"].

Definition is_na (v : cell) : bool :=
  match v with
  | CStr s => bool_decide (s ∈ na_values)
  | CInt _ => false
  end.

(** Column labels as [pd.read_csv] gives them and [to_csv] writes them
    back for it to find again: at least one, all distinct, none empty. *)
Definition labels_ok (cols : list string) : bool :=
  bool_decide (cols ≠ [] ∧ NoDup cols ∧ "" ∉ cols).

(** A reader for a file that holds the table as it was written: a cell
    whose text is one of [na_values] is missing afterwards, every other
    cell is read as written. Of what [pd.read_csv] does to cells it has
    this much only; it leaves out the typing of text that looks like a
    number. *)
Definition read_na (df : DataFrame) : DataFrame :=
  {| columns := columns df;
     rows := map (omap (λ v, if is_na v then None else Some v)) (rows df) |}.

(** ** The request of the nutrition lookup *)

Definition nutritionix_url : string :=
  "https://trackapi.nutritionix.com/v2/natural/nutrients".

Definition request_headers (app_id api_key : pyval) : gmap string pyval :=
  <["x-app-id" := app_id]>
  (<["x-app-key" := api_key]>
  (<["Content-Type" := PStr "application/json"]> ∅)).

Definition request_body (food_name : string) : gmap string pyval :=
  <["query" := PStr food_name]> (<["timezone" := PStr "US/Eastern"]> ∅).

(** ** Sample inputs *)

(** Every field exactly at its threshold. *)
Definition at_thresholds : gmap string pyval :=
  <["Calories" := PNum 500]>
  (<["Sweetness (g)" := PNum 20]>
  (<["Sodium (mg)" := PNum 1500]>
  (<["Proteins (g)" := PNum 15]>
  (<["Total Fat (g)" := PNum 20]>
  (<["Cholesterol (mg)" := PNum 200]>
  (<["Potassium (mg)" := PNum 400]>
  (<["Total Carbohydrates (g)" := PNum 50]> ∅))))))).

(** Only the protein rule holds. *)
Definition protein_only : gmap string pyval :=
  <["Calories" := PNum 120]> (<["Proteins (g)" := PNum 30]> ∅).

(** A 200 response whose list of foods is empty. *)
Definition empty_foods : response :=
  {| status_code := 200;
     json := Ok (PDict (<["foods" := PList []]> ∅)) |}.

Definition post_empty_foods
    (url : string) (headers body : gmap string pyval) : result response :=
  Ok empty_foods.

(** A polarity score for three texts. *)
Definition sample_polarity (comment : string) : Q :=
  if String.eqb comment "good" then 1 # 2
  else if String.eqb comment "bad" then - (1 # 2)
  else 0.



(** A record whose calorie field is text. *)
Definition text_calories : gmap string pyval :=
  <["Calories" := PStr "high"]> (<["Proteins (g)" := PNum 30]> ∅).

(** A service that answers every request with the same response. *)
Definition respond (r : response)
    (url : string) (headers body : gmap string pyval) : result response :=
  Ok r.

(** A food as the service describes it: no sugar value, text for sodium
    left out. *)
Definition apple : gmap string pyval :=
  <["food_name" := PStr "apple"]>
  (<["nf_calories" := PNum 95]>
  (<["nf_sugars" := PNone]>
  (<["nf_potassium" := PNum 195]> ∅))).

Definition apple_response : response :=
  {| status_code := 200;
     json := Ok (PDict (<["foods" := PList [PDict apple; PNum 7]]> ∅)) |}.

(** A food without a name. *)
Definition nameless_response : response :=
  {| status_code := 200;
     json := Ok (PDict (<["foods" := PList [PDict ∅]]> ∅)) |}.

(** A failed lookup with a body that is no JSON at all. *)
Definition not_found_response : response :=
  {| status_code := 404; json := Raise TypeError |}.

Definition no_foods_response : response :=
  {| status_code := 200;
     json := Ok (PDict (<["message" := PStr "no match"]> ∅)) |}.

(** A user whose name pandas takes for a missing value, and a comment of
    that kind. *)
Definition na_ann : entry :=
  {| e_name := "NA"; e_age := 31; e_satisfaction := 8; e_comment := "good" |}.

Definition bob_na : entry :=
  {| e_name := "Bob"; e_age := 47; e_satisfaction := 2; e_comment := "n/a" |}.

(** A service whose answer depends on the query: one food for "apple",
    the same food followed by another item for anything else. *)
Definition menu_service
    (url : string) (headers body : gmap string pyval) : result response :=
  match body !! "query" with
  | Some (PStr "apple") => Ok apple_response
  | _ =>
      Ok {| status_code := 200;
            json := Ok (PDict (<["foods" := PList [PDict apple; PStr "pear"]]>
                               (<["total" := PNum 2]> ∅))) |}
  end.

(** ** The functions that call other packages *)

Section Program.

#[local] Set Default Proof Using "Type".

(** [str.lower] and [str.title]. *)
Variable lower : string → string.
Variable title : string → string.

(** [os.getenv] of the two service credentials, and [requests.post]
    applied to url, headers and JSON body. *)
Variables NUTRITIONIX_APP_ID NUTRITIONIX_API_KEY : pyval.
Variable requests_post :
  string → gmap string pyval → gmap string pyval → result response.

(** [TextBlob(comment).sentiment.polarity]. *)
Variable polarity : string → Q.

(** The content of [feedback.csv], with [DataFrame.to_csv(index=False)]
    and [pd.read_csv]. A value of [csv] is a content that [pd.read_csv]
    parses; an empty or malformed file, on which [pd.read_csv] raises, is
    not among them, and no statement below speaks of one. *)
Variable csv : Type.
Variable to_csv : DataFrame → csv.
Variable read_csv : csv → DataFrame.

Definition get_nutrition_info (food_name : string) : result pyval :=
  let url := "https://trackapi.nutritionix.com/v2/natural/nutrients" in
  let headers : gmap string pyval :=
    <["x-app-id" := NUTRITIONIX_APP_ID]>
    (<["x-app-key" := NUTRITIONIX_API_KEY]>
    (<["Content-Type" := PStr "application/json"]> ∅)) in
  let body : gmap string pyval :=
    <["query" := PStr food_name]> (<["timezone" := PStr "US/Eastern"]> ∅) in
  response ← requests_post url headers body;
  if (status_code response =? 200)%Z then
    data ← json response;
    found ← py_in "foods" data;
    if found : bool then
      foods ← py_getitem data "foods";
      nutrition ← py_getitem0 foods;
      name ← py_getitem nutrition "food_name";
      match nutrition, name with
      | PDict nutrition, PStr name =>
          Ok (PDict
            (<["Food" := PStr (title name)]>
            (<["Calories" := py_get nutrition "nf_calories"]>
            (<["Proteins (g)" := py_get nutrition "nf_protein"]>
            (<["Sweetness (g)" := py_or (py_get nutrition "nf_sugars") (PNum 0)]>
            (<["Sodium (mg)" := py_get nutrition "nf_sodium"]>
            (<["Total Fat (g)" := py_get nutrition "nf_total_fat"]>
            (<["Cholesterol (mg)" := py_get nutrition "nf_cholesterol"]>
            (<["Potassium (mg)" := py_get nutrition "nf_potassium"]>
            (<["Total Carbohydrates (g)" :=
                 py_get nutrition "nf_total_carbohydrate"]> ∅))))))))))
      | _, _ => Raise AttributeError
      end
    else Ok PNone
  else Ok PNone.

Definition extract_health_goals (prompt : string) : gmap string pyval :=
  let prompt := lower prompt in
  <["diabetes" := PBool (str_in "diabetes" prompt)]>
  (<["weight_loss" :=
      PBool (str_in "weight loss" prompt || str_in "losing weight" prompt)]>
  (<["high_bp" :=
      PBool (str_in "blood pressure" prompt || str_in "bp" prompt
             || str_in "hypertension" prompt)]> ∅)).

Definition analyze_sentiment (comment : string) : string :=
  let polarity := polarity comment in
  if Qgtb polarity 0 then "😊 Positive"
  else if Qltb polarity 0 then "😔 Negative"
  else "😐 Neutral".

(** The state is the file [feedback.csv]: [None] while it does not
    exist. *)
Definition save_feedback (file : option csv)
    (user_name : string) (user_age satisfaction : Z) (comment : string)
  : option csv :=
  let sentiment := analyze_sentiment comment in
  let new_feedback := pd_DataFrame
    [[("Name", CStr user_name);
      ("Age", CInt user_age);
      ("Satisfaction", CInt satisfaction);
      ("Comment", CStr comment);
      ("Sentiment", CStr sentiment)]] in
  let all_feedback :=
    match file with
    | Some content =>
        let existing := read_csv content in
        pd_concat existing new_feedback
    | None => new_feedback
    end in
  Some (to_csv all_feedback).

(** The counts that [show_sentiment_graph] plots; [None] is the branch
    that reports that there is no feedback yet. *)
Definition show_sentiment_graph (file : option csv)
  : result (option (list (cell * nat))) :=
  match file with
  | Some content =>
      let feedback := read_csv content in
      sentiment ← df_getitem feedback "Sentiment";
      let sentiment_counts := value_counts sentiment in
      Ok (Some sentiment_counts)
  | None => Ok None
  end.

(** Reading the store back: the table in the file, if there is one. *)
Definition read_store (file : option csv) : option DataFrame :=
  read_csv <$> file.

(** Submitting the entries of a list, first to last. *)
Definition save_all (file : option csv) (entries : list entry) : option csv :=
  foldl (λ f e, save_feedback f (e_name e) (e_age e) (e_satisfaction e) (e_comment e))
        file entries.

(** The row [save_feedback] writes for an entry. *)
Definition row_of (e : entry) : gmap string cell :=
  list_to_map
    [("Name", CStr (e_name e));
     ("Age", CInt (e_age e));
     ("Satisfaction", CInt (e_satisfaction e));
     ("Comment", CStr (e_comment e));
     ("Sentiment", CStr (analyze_sentiment (e_comment e)))].

(** The table in the file; the table without columns or rows while
    there is no file. *)
Definition table_of (file : option csv) : DataFrame :=
  default {| columns := []; rows := [] |} (read_store file).

(** A table holds the entries' sentiments: it has the columns of the
    schema and one row per entry, and its Sentiment column lists the
    entries' labels in the order of the entries. *)
Definition holds_sentiments (table : DataFrame) (entries : list entry) : Prop :=
  columns table = schema ∧
  length (rows table) = length entries ∧
  map (λ r : gmap string cell, r !! "Sentiment") (rows table)
  = map (λ e, Some (CStr (analyze_sentiment (e_comment e)))) entries.

(** The feedback page from the submit button on: the button's branch,
    then the sentiment graph. It gives the file as the run leaves it and
    what was shown, or the exception that ended the run. *)
Definition feedback_page (file : option csv) (submit : bool)
    (user_name : string) (user_age satisfaction : Z) (comment : string)
  : option csv * result (list ui) :=
  let '(file, shown) :=
    if submit then
      if truthy (PStr user_name) && truthy (PStr comment) then
        (save_feedback file user_name user_age satisfaction comment,
         [st_success "🎉 Thanks for your feedback!";
          st_balloons;
          st_toast "Feedback Submitted Successfully!"])
      else
        (file, [st_error "⚠️ Please fill in both Name and Comment."])
    else (file, []) in
  (file,
   counts ← show_sentiment_graph file;
   Ok (shown ++
       match counts with
       | Some sentiment_counts => [st_pie sentiment_counts]
       | None => [st_info "No feedback available yet to show sentiment graph."]
       end)%list).

(** On ASCII text [str.lower] is [lower_ascii]. *)
Hypothesis lower_on_ascii : ∀ s, is_ascii s = true → lower s = lower_ascii s.

(** What [to_csv] writes, [read_csv] reads back. pandas meets this on
    the sentiment labels; it does not on every text (see [read_na] and
    [na_text_lost]), so it is used only where the conclusion reads the
    Sentiment column alone. *)
Hypothesis read_to_csv : ∀ df, read_csv (to_csv df) = df.

(** What pandas keeps when it reads back a table it wrote: the column
    labels, the number of rows, and every cell that holds one of the
    sentiment labels, in its place. Nothing is assumed of other cells. *)
Hypothesis reread_keeps : ∀ df,
  labels_ok (columns df) = true →
  columns (read_csv (to_csv df)) = columns df ∧
  length (rows (read_csv (to_csv df))) = length (rows df) ∧
  ∀ (i : nat) (r : gmap string cell) c l,
    rows df !! i = Some r → c ∈ columns df →
    r !! c = Some (CStr l) → l ∈ sentiment_labels →
    ∃ r', rows (read_csv (to_csv df)) !! i = Some r' ∧ r' !! c = Some (CStr l).

Lemma py_gt_as_num v q t : as_num v = Some q → py_gt v t = Ok (Qgtb q t).
Proof. destruct v; simpl; try discriminate; intros [= <-]; reflexivity. Qed.

Lemma potassium_guard x (t : Q) :
  (0 <= t)%Q →
  let p := py_or x (PNum 0) in
  (if truthy p then py_gt p t else Ok false) = py_gt p t.
Proof.
  intros Ht p. subst p. unfold py_or.
  destruct (truthy x) eqn:Hx.
  - rewrite Hx. reflexivity.
  - simpl. unfold Qgtb.
    destruct (0 ?= t)%Q eqn:Hc; try reflexivity.
    apply Qgt_alt in Hc. apply Qle_not_lt in Ht. contradiction.
Qed.

Lemma numeric_field n r : numeric n = true → as_num (field n r) = Some (field_num n r).
Proof.
  unfold numeric. rewrite forallb_forall. intros H.
  assert (Hin : In r all_rules) by (destruct r; simpl; tauto).
  specialize (H r Hin). apply bool_decide_eq_true in H. destruct H as [q Hq].
  unfold field_num. rewrite Hq. reflexivity.
Qed.

Lemma give_recommendations_table n hg :
  numeric n = true →
  give_recommendations n hg = Ok (table_advice (rule_holds n) (goals_or_empty hg)).
Proof.
  intros Hn. unfold give_recommendations. cbv zeta.
  pose proof (numeric_field n RCalories Hn) as H1.
  pose proof (numeric_field n RSweetness Hn) as H2.
  pose proof (numeric_field n RSodium Hn) as H3.
  pose proof (numeric_field n RProtein Hn) as H4.
  pose proof (numeric_field n RFat Hn) as H5.
  pose proof (numeric_field n RCholesterol Hn) as H6.
  pose proof (numeric_field n RPotassium Hn) as H7.
  pose proof (numeric_field n RCarbs Hn) as H8.
  unfold field in *. simpl rule_key in *.
  rewrite (potassium_guard (py_get n "Potassium (mg)") 400) by (vm_compute; discriminate).
  rewrite (py_gt_as_num _ _ 500 H1), (py_gt_as_num _ _ 20 H2), (py_gt_as_num _ _ 1500 H3),
    (py_gt_as_num _ _ 15 H4), (py_gt_as_num _ _ 20 H5), (py_gt_as_num _ _ 200 H6),
    (py_gt_as_num _ _ 400 H7), (py_gt_as_num _ _ 50 H8).
  unfold table_advice, all_rules, rule_holds. simpl List.filter. simpl rule_threshold.
  cbn [mbind result_bind].
  destruct (Qgtb (field_num n RCalories) 500), (Qgtb (field_num n RSweetness) 20),
    (Qgtb (field_num n RSodium) 1500), (Qgtb (field_num n RProtein) 15),
    (Qgtb (field_num n RFat) 20), (Qgtb (field_num n RCholesterol) 200),
    (Qgtb (field_num n RPotassium) 400), (Qgtb (field_num n RCarbs) 50);
    reflexivity.
Qed.

(** Closes a negated decidable goal on concrete data by evaluation. *)
Ltac by_computation :=
  lazymatch goal with
  | |- ¬ ?P => apply (bool_decide_eq_false_1 P); vm_compute; reflexivity
  | |- ?P → False =>
      change (¬ P); apply (bool_decide_eq_false_1 P); vm_compute; reflexivity
  end.

Lemma Qgtb_lt q t : Qgtb q t = true ↔ (t < q)%Q.
Proof.
  unfold Qgtb. rewrite (Qgt_alt q t).
  destruct (q ?= t)%Q; split; intros H; congruence.
Qed.

Lemma Qgtb_eq q t : (q == t)%Q → Qgtb q t = false.
Proof.
  intros H. unfold Qgtb. apply Qeq_alt in H. rewrite H. reflexivity.
Qed.

Lemma message_variant goals r r' :
  rule_message goals r' ∈ rule_variants r → r' = r.
Proof.
  unfold rule_message.
  destruct (truthy (py_get goals "weight_loss")),
           (truthy (py_get goals "diabetes")),
           (truthy (py_get goals "high_bp"));
    destruct r', r; intros H; try reflexivity; exfalso; revert H;
    by_computation.
Qed.

Lemma balanced_no_variant r : msg_balanced ∉ rule_variants r.
Proof. destruct r; by_computation. Qed.

Lemma table_advice_elem holds goals m :
  m ∈ table_advice holds goals →
  m = msg_balanced ∨ ∃ r, holds r = true ∧ m = rule_message goals r.
Proof.
  unfold table_advice. intros H.
  destruct (List.filter holds all_rules) as [|r0 fired] eqn:Hf.
  - left. apply list_elem_of_singleton in H. exact H.
  - right. apply list_elem_of_fmap in H. destruct H as [r [-> Hr]].
    exists r. split; [|reflexivity].
    rewrite <- Hf in Hr. apply list_elem_of_In, filter_In in Hr. tauto.
Qed.

Lemma fires_holds holds goals r :
  fires r (table_advice holds goals) → holds r = true.
Proof.
  intros [m [Hv Hm]]. apply table_advice_elem in Hm.
  destruct Hm as [-> | [r' [Hr' ->]]].
  - exfalso. exact (balanced_no_variant r Hv).
  - apply message_variant in Hv. subst r'. exact Hr'.
Qed.

Lemma field_absent n r :
  n !! rule_key r = None ∨ n !! rule_key r = Some PNone → field n r = PNum 0.
Proof.
  unfold field, py_get. intros [-> | ->]; reflexivity.
Qed.

Lemma field_number n r q :
  n !! rule_key r = Some (PNum q) → field_num n r = if Qeq_bool q 0 then 0%Q else q.
Proof.
  unfold field_num, field, py_get, py_or. intros ->. simpl.
  destruct (Qeq_bool q 0); reflexivity.
Qed.

Lemma threshold_positive r : (0 < rule_threshold r)%Q.
Proof. destruct r; reflexivity. Qed.

Lemma field_number_gt n r q :
  n !! rule_key r = Some (PNum q) → rule_holds n r = Qgtb q (rule_threshold r).
Proof.
  intros H. unfold rule_holds. rewrite (field_number n r q H).
  destruct (Qeq_bool q 0) eqn:Hq; [|reflexivity].
  apply Qeq_bool_iff in Hq.
  pose proof (threshold_positive r) as Ht.
  transitivity false.
  - destruct (Qgtb 0 (rule_threshold r)) eqn:Hc; [|reflexivity].
    apply Qgtb_lt in Hc. exfalso. exact (Qlt_irrefl 0 (Qlt_trans _ _ _ Ht Hc)).
  - symmetry. destruct (Qgtb q (rule_threshold r)) eqn:Hc; [|reflexivity].
    apply Qgtb_lt in Hc. rewrite Hq in Hc.
    exfalso. exact (Qlt_irrefl 0 (Qlt_trans _ _ _ Ht Hc)).
Qed.

(** C1. For the scenario record (calories 600, sweetness 25, sodium 1600,
    protein 5, fat 10, cholesterol 50, potassium 100, carbs 20) with the
    flags diabetes, weight loss and high blood pressure all set,
    [give_recommendations] returns exactly three messages, in order: the
    calorie message with the weight-loss text, the sweetness message with
    the diabetes text, the sodium message with the blood-pressure text. *)
Theorem scenario_three_messages :
  give_recommendations scenario_nutrition (Some scenario_goals)
  = Ok [msg_calories +:+ msg_calories_weight_loss;
        msg_sweetness +:+ msg_sweetness_diabetes;
        msg_sodium +:+ msg_sodium_high_bp].
Proof. vm_compute. reflexivity. Qed.

(** C3. Every threshold is strict: on a nutrition record, a rule whose
    field equals its threshold (500, 20, 1500, 15, 20, 200, 400, 50) does
    not fire, and an absent field is read as 0 and fires no rule. *)
Theorem thresholds_strict (n : gmap string pyval) hg :
  numeric n = true →
  ∃ advice, give_recommendations n hg = Ok advice ∧
    ∀ r,
      (∀ q, n !! rule_key r = Some (PNum q) → (q == rule_threshold r)%Q →
            ¬ fires r advice) ∧
      (n !! rule_key r = None ∨ n !! rule_key r = Some PNone →
            field n r = PNum 0 ∧ ¬ fires r advice).
Proof.
  intros Hn. eexists. split; [apply give_recommendations_table, Hn|].
  intros r. split.
  - intros q Hq Heq Hf. apply fires_holds in Hf.
    rewrite (field_number_gt n r q Hq), (Qgtb_eq _ _ Heq) in Hf. discriminate.
  - intros Ha. split; [apply field_absent, Ha|].
    intros Hf. apply fires_holds in Hf.
    unfold rule_holds, field_num in Hf. rewrite (field_absent n r Ha) in Hf.
    destruct r; discriminate.
Qed.

(** C4. On a nutrition record for which none of the eight conditions
    holds, the result is exactly the fallback message; when exactly one
    condition holds, the result is the one-element list of that rule's
    message, which is not the fallback. *)
Theorem zero_or_one_rule (n : gmap string pyval) hg :
  numeric n = true →
  ((∀ r, rule_holds n r = false) →
     give_recommendations n hg = Ok [msg_balanced]) ∧
  (∀ r, rule_holds n r = true → (∀ r', r' ≠ r → rule_holds n r' = false) →
     give_recommendations n hg = Ok [rule_message (goals_or_empty hg) r] ∧
     rule_message (goals_or_empty hg) r ≠ msg_balanced).
Proof.
  intros Hn. rewrite (give_recommendations_table n hg Hn). split.
  - intros H. unfold table_advice, all_rules. simpl. rewrite !H. reflexivity.
  - intros r Hr Hothers. split.
    + unfold table_advice, all_rules. simpl.
      destruct r; rewrite Hr; rewrite ?Hothers by discriminate; reflexivity.
    + intros Heq. apply (balanced_no_variant r). rewrite <- Heq.
      unfold rule_message.
      destruct r; simpl; repeat case_match;
        repeat first [apply list_elem_of_here | apply list_elem_of_further].
Qed.

Lemma calories_first holds goals :
  holds RCalories = true →
  ∃ rest, table_advice holds goals = rule_message goals RCalories :: rest ∧
          ∀ m, m ∈ rule_variants RCalories → m ∉ rest.
Proof.
  intros Hc. unfold table_advice, all_rules. simpl. rewrite Hc. simpl.
  eexists. split; [reflexivity|].
  intros m Hm Hin. apply list_elem_of_fmap in Hin. destruct Hin as [r [-> Hr]].
  apply (message_variant goals RCalories r) in Hm. subst r.
  apply list_elem_of_In in Hr.
  repeat match goal with
  | H : In _ (if ?b then _ else _) |- _ => destruct b
  | H : In _ (_ :: _) |- _ => destruct H as [H | H]; [discriminate H|]
  | H : In _ [] |- _ => destruct H
  end.
Qed.

(** C5. On a nutrition record with calories above 500 the advisory list
    starts with the calorie message: the base message, and nowhere the
    weight-loss form, when the flags are omitted or the weight-loss flag
    is false; the weight-loss form when the flag is true. *)
Theorem calorie_message_forms (n : gmap string pyval) (q : Q) :
  numeric n = true →
  n !! "Calories" = Some (PNum q) → (500 < q)%Q →
  (∃ rest, give_recommendations n None = Ok (msg_calories :: rest) ∧
           msg_calories +:+ msg_calories_weight_loss ∉ msg_calories :: rest) ∧
  (∀ goals, truthy (py_get goals "weight_loss") = false →
     ∃ rest, give_recommendations n (Some goals) = Ok (msg_calories :: rest) ∧
             msg_calories +:+ msg_calories_weight_loss ∉ msg_calories :: rest) ∧
  (∀ goals, truthy (py_get goals "weight_loss") = true →
     ∃ rest, give_recommendations n (Some goals)
             = Ok ((msg_calories +:+ msg_calories_weight_loss) :: rest)).
Proof.
  intros Hn Hq Hgt.
  assert (Hc : rule_holds n RCalories = true).
  { rewrite (field_number_gt n RCalories q Hq). apply Qgtb_lt. exact Hgt. }
  assert (Hbase : ∀ goals, truthy (py_get goals "weight_loss") = false →
     ∃ rest, table_advice (rule_holds n) goals = msg_calories :: rest ∧
             msg_calories +:+ msg_calories_weight_loss ∉ msg_calories :: rest).
  { intros goals Hw.
    destruct (calories_first (rule_holds n) goals Hc) as [rest [Heq Hrest]].
    exists rest. simpl in Heq. rewrite Hw in Heq. split; [exact Heq|].
    intros Hin. apply elem_of_cons in Hin. destruct Hin as [Hin | Hin].
    - revert Hin. by_computation.
    - revert Hin. apply Hrest. simpl.
      apply list_elem_of_further, list_elem_of_here. }
  rewrite !(give_recommendations_table n) by exact Hn.
  split; [|split].
  - destruct (Hbase ∅) as [rest [Heq Hnot]]; [reflexivity|].
    exists rest. simpl. rewrite Heq. split; [reflexivity | exact Hnot].
  - intros goals Hw. destruct (Hbase goals Hw) as [rest [Heq Hnot]].
    exists rest. rewrite (give_recommendations_table n _ Hn). simpl.
    rewrite Heq. split; [reflexivity | exact Hnot].
  - intros goals Hw.
    destruct (calories_first (rule_holds n) goals Hc) as [rest [Heq _]].
    exists rest. rewrite (give_recommendations_table n _ Hn). simpl.
    rewrite Heq. simpl. rewrite Hw. reflexivity.
Qed.

(** C10. The truthiness guard of the potassium rule is redundant: after
    [... or 0] the guarded condition and the plain comparison with 400
    agree on every value, so [give_recommendations] returns what the
    variant with the uniform rule shape returns, on every input. *)
Theorem potassium_guard_redundant :
  (∀ x, let potassium := py_or x (PNum 0) in
        (if truthy potassium then py_gt potassium 400 else Ok false)
        = py_gt potassium 400) ∧
  (∀ n hg, give_recommendations n hg = give_recommendations_uniform n hg).
Proof.
  assert (H : ∀ x, let potassium := py_or x (PNum 0) in
        (if truthy potassium then py_gt potassium 400 else Ok false)
        = py_gt potassium 400).
  { intros x. apply potassium_guard. discriminate. }
  split; [exact H|].
  intros n hg. unfold give_recommendations, give_recommendations_uniform.
  cbv zeta. rewrite (H (py_get n "Potassium (mg)")). reflexivity.
Qed.

(** *** Substrings *)

Lemma prefix_occurs sub s :
  String.prefix sub s = true ↔ ∃ post, s = sub +:+ post.
Proof.
  revert s. induction sub as [|a sub IH]; intros s.
  - split; [intros _; exists s; reflexivity | intros _; destruct s; reflexivity].
  - destruct s as [|b s]; simpl.
    + split; [discriminate | intros [post H]; discriminate H].
    + destruct (ascii_dec a b) as [-> | Hne].
      * rewrite IH. split; intros [post H]; exists post.
        -- rewrite H. reflexivity.
        -- injection H as H. exact H.
      * split; [discriminate|]. intros [post H]. injection H as H1 H2.
        congruence.
Qed.

Lemma str_in_occurs sub s : str_in sub s = true ↔ occurs sub s.
Proof.
  unfold occurs. induction s as [|c s IH].
  - cbn [str_in]. rewrite orb_false_r, prefix_occurs. split.
    + intros [post H]. exists EmptyString, post. exact H.
    + intros [pre [post H]]. destruct pre; [exists post; exact H|discriminate H].
  - cbn [str_in]. rewrite orb_true_iff, prefix_occurs, IH. split.
    + intros [[post H] | [pre [post H]]].
      * exists EmptyString, post. exact H.
      * exists (String c pre), post. simpl. rewrite H. reflexivity.
    + intros [pre [post H]]. destruct pre as [|c' pre].
      * left. exists post. exact H.
      * right. injection H as _ H. exists pre, post. exact H.
Qed.

(** C6. [extract_health_goals] tests the lower-cased prompt: each flag is
    true exactly when one of its keywords occurs in it (diabetes:
    "diabetes"; weight_loss: "weight loss", "losing weight"; high_bp:
    "blood pressure", "bp", "hypertension"). On "I have diabetes and
    blood pressure issues" the flags are true, false, true. *)
Theorem extract_health_goals_keywords :
  (∀ prompt, ∃ d w b,
     extract_health_goals prompt
     = <["diabetes" := PBool d]>
       (<["weight_loss" := PBool w]> (<["high_bp" := PBool b]> ∅)) ∧
     (d = true ↔ occurs "diabetes" (lower prompt)) ∧
     (w = true ↔ occurs "weight loss" (lower prompt)
                ∨ occurs "losing weight" (lower prompt)) ∧
     (b = true ↔ occurs "blood pressure" (lower prompt)
                ∨ occurs "bp" (lower prompt)
                ∨ occurs "hypertension" (lower prompt))) ∧
  extract_health_goals "I have diabetes and blood pressure issues"
  = <["diabetes" := PBool true]>
    (<["weight_loss" := PBool false]> (<["high_bp" := PBool true]> ∅)).
Proof using lower_on_ascii.
  split.
  - intros prompt. unfold extract_health_goals. cbv zeta.
    do 3 eexists. split; [reflexivity|].
    split; [apply str_in_occurs|].
    split; [rewrite orb_true_iff, !str_in_occurs; reflexivity|].
    rewrite !orb_true_iff, !str_in_occurs.
    split; [intros [[H | H] | H] | intros [H | [H | H]]]; auto.
  - unfold extract_health_goals. cbv zeta.
    rewrite lower_on_ascii by reflexivity. reflexivity.
Qed.

(** C7. [analyze_sentiment] follows the sign of the polarity score:
    above zero gives Positive, below zero Negative, zero (the empty text
    with it) Neutral; the same text always gets the same label. *)
Theorem sentiment_sign_consistent (comment : string) :
  ((0 < polarity comment)%Q → analyze_sentiment comment = "😊 Positive") ∧
  ((polarity comment < 0)%Q → analyze_sentiment comment = "😔 Negative") ∧
  ((polarity comment == 0)%Q → analyze_sentiment comment = "😐 Neutral") ∧
  (∀ again, again = comment → analyze_sentiment again = analyze_sentiment comment).
Proof.
  unfold analyze_sentiment. cbv zeta. repeat split.
  - intros H. apply Qgtb_lt in H. rewrite H. reflexivity.
  - intros H.
    assert (Hn : Qgtb (polarity comment) 0 = false).
    { destruct (Qgtb (polarity comment) 0) eqn:Hc; [|reflexivity].
      apply Qgtb_lt in Hc. exfalso. exact (Qlt_irrefl _ (Qlt_trans _ _ _ H Hc)). }
    apply Qgtb_lt in H. unfold Qltb. rewrite Hn, H. reflexivity.
  - intros H. unfold Qltb. rewrite (Qgtb_eq _ _ H).
    rewrite (Qgtb_eq 0 (polarity comment)) by (symmetry; exact H). reflexivity.
  - intros again ->. reflexivity.
Qed.

(** *** The nutrition lookup *)

(** A 200 response whose JSON object has no [foods] key gives [None]. *)
Lemma get_nutrition_info_no_foods_key food_name r d :
  (∀ u h b, requests_post u h b = Ok r) →
  status_code r = 200%Z → json r = Ok (PDict d) → d !! "foods" = None →
  get_nutrition_info food_name = Ok PNone.
Proof.
  intros Hpost Hs Hj Hd. unfold get_nutrition_info.
  cbv zeta. rewrite Hpost. cbn [mbind result_bind]. rewrite Hs, Hj. simpl.
  rewrite Hd. reflexivity.
Qed.

(** Any other status gives [None]. *)
Lemma get_nutrition_info_not_200 food_name r :
  (∀ u h b, requests_post u h b = Ok r) → status_code r ≠ 200%Z →
  get_nutrition_info food_name = Ok PNone.
Proof.
  intros Hpost Hs. unfold get_nutrition_info. cbv zeta. rewrite Hpost.
  cbn [mbind result_bind]. apply Z.eqb_neq in Hs. rewrite Hs. reflexivity.
Qed.

(** A 200 response whose [foods] list is empty raises [IndexError]. *)
Lemma get_nutrition_info_empty_foods food_name r d :
  (∀ u h b, requests_post u h b = Ok r) →
  status_code r = 200%Z → json r = Ok (PDict d) → d !! "foods" = Some (PList []) →
  get_nutrition_info food_name = Raise IndexError.
Proof.
  intros Hpost Hs Hj Hd. unfold get_nutrition_info.
  cbv zeta. rewrite Hpost. cbn [mbind result_bind]. rewrite Hs, Hj. simpl.
  rewrite Hd. reflexivity.
Qed.

(** *** The feedback store *)

Lemma series_get_map (f : cell → nat) l v :
  series_get (map (λ x, (x, f x)) l) v
  = if bool_decide (v ∈ l) then Some (f v) else None.
Proof.
  induction l as [|x l IH]; [reflexivity|].
  cbn [map series_get]. destruct (decide (x = v)) as [-> | Hne].
  - rewrite bool_decide_eq_true_2 by reflexivity.
    rewrite bool_decide_eq_true_2 by (apply elem_of_cons; left; reflexivity).
    reflexivity.
  - rewrite (bool_decide_eq_false_2 (x = v)) by exact Hne. rewrite IH.
    apply (f_equal (λ b : bool, if b then Some (f v) else None)).
    apply bool_decide_ext. rewrite elem_of_cons. split; [tauto|].
    intros [H | H]; [congruence | exact H].
Qed.

Lemma series_get_value_counts col v :
  series_get (value_counts col) v
  = if bool_decide (v ∈ omap id col) then Some (count_cell v (omap id col)) else None.
Proof.
  unfold value_counts. cbv zeta.
  rewrite (series_get_map (λ x, count_cell x (omap id col))).
  apply (f_equal (λ b : bool, if b then _ else None)).
  apply bool_decide_ext, elem_of_remove_dups.
Qed.



(** The table [save_feedback] builds for the submitted entry. *)
Lemma new_feedback_table e :
  pd_DataFrame
    [[("Name", CStr (e_name e));
      ("Age", CInt (e_age e));
      ("Satisfaction", CInt (e_satisfaction e));
      ("Comment", CStr (e_comment e));
      ("Sentiment", CStr (analyze_sentiment (e_comment e)))]]
  = {| columns := schema; rows := [row_of e] |}.
Proof. reflexivity. Qed.

Lemma save_feedback_written file e :
  save_feedback file (e_name e) (e_age e) (e_satisfaction e) (e_comment e)
  = Some (to_csv
      match read_store file with
      | Some existing => pd_concat existing {| columns := schema; rows := [row_of e] |}
      | None => {| columns := schema; rows := [row_of e] |}
      end).
Proof.
  unfold save_feedback. cbv zeta. rewrite new_feedback_table.
  destruct file; reflexivity.
Qed.

Lemma concat_schema rows0 e :
  pd_concat {| columns := schema; rows := rows0 |}
            {| columns := schema; rows := [row_of e] |}
  = {| columns := schema; rows := rows0 ++ [row_of e] |}.
Proof. reflexivity. Qed.

Lemma save_all_cons file e entries :
  save_all file (e :: entries)
  = save_all (save_feedback file (e_name e) (e_age e) (e_satisfaction e) (e_comment e))
             entries.
Proof. reflexivity. Qed.


Lemma sentiment_of_row e :
  row_of e !! "Sentiment" = Some (CStr (analyze_sentiment (e_comment e))).
Proof. reflexivity. Qed.



(** *** More on the rule engine *)

Lemma give_recommendations_ext n n' hg :
  (∀ r, field n r = field n' r) →
  give_recommendations n hg = give_recommendations n' hg.
Proof.
  intros H.
  pose proof (H RCalories) as H1. pose proof (H RSweetness) as H2.
  pose proof (H RSodium) as H3. pose proof (H RProtein) as H4.
  pose proof (H RFat) as H5. pose proof (H RCholesterol) as H6.
  pose proof (H RPotassium) as H7. pose proof (H RCarbs) as H8.
  unfold field in *. simpl rule_key in *.
  unfold give_recommendations. cbv zeta.
  rewrite H1, H2, H3, H4, H5, H6, H7, H8. reflexivity.
Qed.

Lemma py_gt_alt v t :
  py_gt v t = match as_num v with
              | Some q => Ok (Qgtb q t)
              | None => Raise TypeError
              end.
Proof. destruct v; reflexivity. Qed.

Lemma not_numeric_raises n hg :
  numeric n = false → give_recommendations n hg = Raise TypeError.
Proof.
  intros Hn. unfold numeric, all_rules in Hn. cbn [forallb] in Hn.
  unfold give_recommendations. cbv zeta.
  rewrite (potassium_guard (py_get n "Potassium (mg)") 400) by discriminate.
  rewrite !py_gt_alt. unfold field in Hn. simpl rule_key in Hn.
  destruct (as_num (py_or (py_get n "Calories") (PNum 0))); [|reflexivity].
  destruct (as_num (py_or (py_get n "Sweetness (g)") (PNum 0))); [|reflexivity].
  destruct (as_num (py_or (py_get n "Sodium (mg)") (PNum 0))); [|reflexivity].
  destruct (as_num (py_or (py_get n "Proteins (g)") (PNum 0))); [|reflexivity].
  destruct (as_num (py_or (py_get n "Total Fat (g)") (PNum 0))); [|reflexivity].
  destruct (as_num (py_or (py_get n "Cholesterol (mg)") (PNum 0))); [|reflexivity].
  destruct (as_num (py_or (py_get n "Potassium (mg)") (PNum 0))); [|reflexivity].
  destruct (as_num (py_or (py_get n "Total Carbohydrates (g)") (PNum 0))); [|reflexivity].
  vm_compute in Hn. discriminate Hn.
Qed.

Lemma rule_in_table r : In r all_rules.
Proof. destruct r; simpl; auto 10. Qed.

Lemma message_is_variant goals r : rule_message goals r ∈ rule_variants r.
Proof.
  unfold rule_message, rule_variants.
  destruct r; repeat case_match;
    first [apply list_elem_of_here | apply list_elem_of_further, list_elem_of_here].
Qed.

Lemma table_advice_fired holds goals r :
  holds r = true →
  table_advice holds goals = map (rule_message goals) (List.filter holds all_rules).
Proof.
  intros Hr. unfold table_advice.
  destruct (List.filter holds all_rules) as [|r0 fired] eqn:Hf; [|reflexivity].
  exfalso. assert (Hin : In r (List.filter holds all_rules)).
  { apply filter_In. split; [apply rule_in_table | exact Hr]. }
  rewrite Hf in Hin. destruct Hin.
Qed.

Lemma holds_fires holds goals r :
  holds r = true → fires r (table_advice holds goals).
Proof.
  intros Hr. exists (rule_message goals r). split; [apply message_is_variant|].
  rewrite (table_advice_fired holds goals r Hr).
  apply list_elem_of_fmap. exists r. split; [reflexivity|].
  apply list_elem_of_In, filter_In. split; [apply rule_in_table | exact Hr].
Qed.

Lemma table_advice_length holds goals :
  (1 ≤ length (table_advice holds goals) ≤ 8)%nat.
Proof.
  unfold table_advice.
  pose proof (List.filter_length_le holds all_rules) as Hle.
  change (length all_rules) with 8 in Hle.
  destruct (List.filter holds all_rules) as [|r0 fired]; simpl in *.
  - split; repeat constructor.
  - rewrite length_map. split; [apply le_n_S, Nat.le_0_l | exact Hle].
Qed.

Lemma filter_NoDup {A} (f : A → bool) (l : list A) :
  NoDup l → NoDup (List.filter f l).
Proof.
  induction 1 as [|x l Hx Hl IH]; simpl; [constructor|].
  destruct (f x); [|exact IH]. constructor; [|exact IH].
  intros Hin. apply Hx. apply list_elem_of_In, filter_In in Hin.
  apply list_elem_of_In, Hin.
Qed.

Lemma all_rules_NoDup : NoDup all_rules.
Proof. apply (bool_decide_unpack _). vm_compute. exact I. Qed.

Lemma table_advice_NoDup holds goals : NoDup (table_advice holds goals).
Proof.
  unfold table_advice.
  pose proof (filter_NoDup holds all_rules all_rules_NoDup) as Hnd.
  destruct (List.filter holds all_rules) as [|r0 fired].
  - apply NoDup_singleton.
  - apply (NoDup_fmap_2_strong (rule_message goals)); [|exact Hnd].
    intros r r' _ _ Heq. pose proof (message_is_variant goals r) as Hv.
    rewrite Heq in Hv. apply message_variant in Hv. congruence.
Qed.

Lemma table_advice_balanced holds goals :
  msg_balanced ∈ table_advice holds goals →
  table_advice holds goals = [msg_balanced].
Proof.
  intros Hin. unfold table_advice in *.
  destruct (List.filter holds all_rules) as [|r0 fired]; [reflexivity|].
  exfalso. apply list_elem_of_fmap in Hin. destruct Hin as [r [Heq _]].
  apply (balanced_no_variant r). rewrite Heq. apply message_is_variant.
Qed.

(** X1. On a nutrition record the result is the list of the messages of
    the rules whose condition holds, every one of them, in table order;
    it is the fallback alone when no condition holds. *)
Theorem advice_in_table_order (n : gmap string pyval) hg :
  numeric n = true →
  give_recommendations n hg
  = Ok match List.filter (rule_holds n) all_rules with
       | [] => [msg_balanced]
       | fired => map (rule_message (goals_or_empty hg)) fired
       end.
Proof. intros Hn. apply (give_recommendations_table n hg Hn). Qed.

Lemma forallb_false {A} (f : A → bool) (l : list A) :
  forallb f l = false → ∃ x, In x l ∧ f x = false.
Proof.
  induction l as [|x l IH]; simpl; [discriminate|].
  destruct (f x) eqn:Hx; simpl.
  - intros H. destruct (IH H) as [y [Hy Hf]]. exists y. auto.
  - intros _. exists x. auto.
Qed.

(** X2. [give_recommendations] raises exactly when one of the eight
    fields holds a truthy value that is not a number (text, a list, a
    dictionary), and the exception is then [TypeError]. *)
Theorem type_error_iff_bad_field (n : gmap string pyval) hg :
  (∀ r v, n !! rule_key r = Some v → truthy v = true → as_num v = None →
          give_recommendations n hg = Raise TypeError) ∧
  (∀ e, give_recommendations n hg = Raise e →
        e = TypeError ∧
        ∃ r v, n !! rule_key r = Some v ∧ truthy v = true ∧ as_num v = None).
Proof.
  split.
  - intros r v Hv Ht Hnum. apply not_numeric_raises.
    destruct (numeric n) eqn:Hn; [|reflexivity].
    pose proof (numeric_field n r Hn) as Hf.
    unfold field, py_get, py_or in Hf. rewrite Hv in Hf. simpl in Hf.
    rewrite Ht, Hnum in Hf. discriminate Hf.
  - intros e He. destruct (numeric n) eqn:Hn.
    + rewrite (give_recommendations_table n hg Hn) in He. discriminate He.
    + rewrite (not_numeric_raises n hg Hn) in He. injection He as <-.
      split; [reflexivity|].
      unfold numeric in Hn. apply forallb_false in Hn.
      destruct Hn as [r [_ Hr]]. apply bool_decide_eq_false in Hr.
      exists r. unfold field, py_get, py_or in Hr.
      destruct (n !! rule_key r) as [v|] eqn:Hv; simpl in Hr.
      * exists v. destruct (truthy v) eqn:Ht.
        -- split; [reflexivity|]. split; [reflexivity|].
           destruct (as_num v) eqn:Hnum; [|reflexivity].
           exfalso. apply Hr. eexists. reflexivity.
        -- exfalso. apply Hr. eexists. reflexivity.
      * exfalso. apply Hr. eexists. reflexivity.
Qed.

(** X3. A field holding a falsy value ([None], 0, [False], empty text,
    an empty list or dictionary) is the same as a field that is absent. *)
Theorem falsy_field_is_absent (n : gmap string pyval) hg (k : string) (v : pyval) :
  truthy v = false →
  give_recommendations (<[k := v]> n) hg = give_recommendations (delete k n) hg.
Proof.
  intros Hv. apply give_recommendations_ext. intros r. unfold field, py_get.
  destruct (decide (k = rule_key r)) as [-> | Hne].
  - rewrite lookup_insert_eq, lookup_delete_eq. simpl. unfold py_or.
    rewrite Hv. reflexivity.
  - rewrite lookup_insert_ne, lookup_delete_ne by exact Hne. reflexivity.
Qed.

(** X4. Only the eight nutrient keys are read: a value under any other
    key (the food's name, say) does not change the result. *)
Theorem other_keys_ignored (n : gmap string pyval) hg (k : string) (v : pyval) :
  (∀ r, k ≠ rule_key r) →
  give_recommendations (<[k := v]> n) hg = give_recommendations n hg.
Proof.
  intros Hk. apply give_recommendations_ext. intros r. unfold field, py_get.
  rewrite lookup_insert_ne by apply Hk. reflexivity.
Qed.

(** X5. The health-goal flags change the wording only: with any two
    sets of flags the same rules fire and the lists are equally long. *)
Theorem flags_change_wording_only (n : gmap string pyval) hg hg' :
  numeric n = true →
  ∃ advice advice',
    give_recommendations n hg = Ok advice ∧
    give_recommendations n hg' = Ok advice' ∧
    length advice = length advice' ∧
    ∀ r, fires r advice ↔ fires r advice'.
Proof.
  intros Hn. do 2 eexists.
  split; [apply give_recommendations_table, Hn|].
  split; [apply give_recommendations_table, Hn|]. split.
  - unfold table_advice.
    destruct (List.filter (rule_holds n) all_rules); [reflexivity|].
    rewrite !length_map. reflexivity.
  - intros r. split; intros H; apply holds_fires; apply fires_holds in H; exact H.
Qed.

(** X6. The result of [give_recommendations] on a nutrition record has
    between one and eight messages, none of them twice, and the fallback
    message is there only when it is the whole list. *)
Theorem advice_shape (n : gmap string pyval) hg :
  numeric n = true →
  ∃ advice,
    give_recommendations n hg = Ok advice ∧
    (1 ≤ length advice ≤ 8)%nat ∧
    NoDup advice ∧
    (msg_balanced ∈ advice → advice = [msg_balanced]) ∧
    (∀ r, fires r advice ↔ rule_holds n r = true).
Proof.
  intros Hn. eexists. split; [apply give_recommendations_table, Hn|].
  split; [apply table_advice_length|].
  split; [apply table_advice_NoDup|].
  split; [apply table_advice_balanced|].
  intros r. split; [apply fires_holds | apply holds_fires].
Qed.

(** *** More on the nutrition lookup *)

Lemma py_or_not_none x : py_or x (PNum 0) ≠ PNone.
Proof.
  unfold py_or. destruct (truthy x) eqn:Hx; [|discriminate].
  intros ->. discriminate Hx.
Qed.

Lemma py_or_idem x : py_or (py_or x (PNum 0)) (PNum 0) = py_or x (PNum 0).
Proof.
  unfold py_or. destruct (truthy x) eqn:Hx; [rewrite Hx|]; reflexivity.
Qed.

Lemma get_nutrition_info_first_food food_name r d f rest s :
  (∀ u h b, requests_post u h b = Ok r) →
  status_code r = 200%Z → json r = Ok (PDict d) →
  d !! "foods" = Some (PList (PDict f :: rest)) →
  f !! "food_name" = Some (PStr s) →
  get_nutrition_info food_name
  = Ok (PDict
      (<["Food" := PStr (title s)]>
      (<["Calories" := py_get f "nf_calories"]>
      (<["Proteins (g)" := py_get f "nf_protein"]>
      (<["Sweetness (g)" := py_or (py_get f "nf_sugars") (PNum 0)]>
      (<["Sodium (mg)" := py_get f "nf_sodium"]>
      (<["Total Fat (g)" := py_get f "nf_total_fat"]>
      (<["Cholesterol (mg)" := py_get f "nf_cholesterol"]>
      (<["Potassium (mg)" := py_get f "nf_potassium"]>
      (<["Total Carbohydrates (g)" := py_get f "nf_total_carbohydrate"]> ∅)))))))))).
Proof.
  intros Hpost Hs Hj Hd Hf. unfold get_nutrition_info.
  cbv zeta. rewrite Hpost. cbn [mbind result_bind]. rewrite Hs, Hj. simpl.
  rewrite Hd. simpl. rewrite Hf. reflexivity.
Qed.

(** X7. Any status other than 200 gives [None]; the body is not even
    parsed, so a body that is not JSON does no harm. *)
Theorem lookup_not_200_is_none food_name r :
  (∀ u h b, requests_post u h b = Ok r) → status_code r ≠ 200%Z →
  get_nutrition_info food_name = Ok PNone.
Proof. apply get_nutrition_info_not_200. Qed.

(** X8. A 200 response whose JSON object has no [foods] key gives
    [None], whatever else the object holds. *)
Theorem lookup_without_foods_key_is_none food_name r d :
  (∀ u h b, requests_post u h b = Ok r) →
  status_code r = 200%Z → json r = Ok (PDict d) → d !! "foods" = None →
  get_nutrition_info food_name = Ok PNone.
Proof. apply get_nutrition_info_no_foods_key. Qed.

(** X9. When the first food is an object with a text [food_name], the
    result is a dictionary with exactly the nine keys: the title-cased
    name, the sugar value with 0 put for a missing or null one (never
    [None]), and every other nutrient as the service gave it, [None] if
    it gave none. *)
Theorem lookup_record food_name r d f rest s :
  (∀ u h b, requests_post u h b = Ok r) →
  status_code r = 200%Z → json r = Ok (PDict d) →
  d !! "foods" = Some (PList (PDict f :: rest)) →
  f !! "food_name" = Some (PStr s) →
  ∃ record,
    get_nutrition_info food_name = Ok (PDict record) ∧
    dom record = record_keys ∧
    record !! "Food" = Some (PStr (title s)) ∧
    record !! "Sweetness (g)" = Some (py_or (py_get f "nf_sugars") (PNum 0)) ∧
    record !! "Sweetness (g)" ≠ Some PNone ∧
    ∀ x, x ≠ RSweetness → record !! rule_key x = Some (py_get f (nf_key x)).
Proof.
  intros Hpost Hs Hj Hd Hf. eexists.
  split; [exact (get_nutrition_info_first_food food_name r d f rest s Hpost Hs Hj Hd Hf)|].
  split; [rewrite !dom_insert_L, dom_empty_L; reflexivity|].
  split; [reflexivity|]. split; [reflexivity|]. split.
  - intros H. injection H as H. exact (py_or_not_none _ H).
  - intros x Hx. destruct x; try reflexivity. contradiction Hx. reflexivity.
Qed.

(** X10. Whatever [get_nutrition_info] returns is [None] or a dictionary
    with all nine keys, never a partial one; the dictionary is truthy, so
    the caller's test [if nutrition] tells the two apart. *)
Theorem lookup_result_none_or_full food_name v :
  get_nutrition_info food_name = Ok v →
  v = PNone ∨ ∃ record, v = PDict record ∧ dom record = record_keys ∧ truthy v = true.
Proof.
  unfold get_nutrition_info. cbv zeta.
  destruct (requests_post _ _ _) as [r|]; cbn [mbind result_bind]; [|discriminate].
  destruct (status_code r =? 200)%Z; [|intros [= <-]; left; reflexivity].
  destruct (json r) as [data|]; cbn [mbind result_bind]; [|discriminate].
  destruct (py_in "foods" data) as [[|]|]; cbn [mbind result_bind];
    [|intros [= <-]; left; reflexivity|discriminate].
  destruct (py_getitem data "foods") as [foods|]; cbn [mbind result_bind]; [|discriminate].
  destruct (py_getitem0 foods) as [nutrition|]; cbn [mbind result_bind]; [|discriminate].
  destruct (py_getitem nutrition "food_name") as [name|]; cbn [mbind result_bind];
    [|discriminate].
  destruct nutrition; try discriminate. destruct name; try discriminate.
  intros [= <-]. right. eexists. split; [reflexivity|].
  split; [rewrite !dom_insert_L, dom_empty_L; reflexivity|].
  simpl. apply negb_true_iff, bool_decide_eq_false, insert_non_empty.
Qed.

(** X11. A first food without [food_name] raises [KeyError]; one whose
    [food_name] is not text raises [AttributeError]. *)
Theorem lookup_bad_name_raises food_name r d f rest :
  (∀ u h b, requests_post u h b = Ok r) →
  status_code r = 200%Z → json r = Ok (PDict d) →
  d !! "foods" = Some (PList (PDict f :: rest)) →
  (f !! "food_name" = None → get_nutrition_info food_name = Raise KeyError) ∧
  (∀ v, f !! "food_name" = Some v → (∀ s, v ≠ PStr s) →
        get_nutrition_info food_name = Raise AttributeError).
Proof.
  intros Hpost Hs Hj Hd. unfold get_nutrition_info.
  cbv zeta. rewrite Hpost. cbn [mbind result_bind]. rewrite Hs, Hj. simpl.
  rewrite Hd. simpl. split.
  - intros ->. reflexivity.
  - intros v -> Hv. simpl. destruct v; try reflexivity. contradiction (Hv s). reflexivity.
Qed.

(** X12. A record that [get_nutrition_info] built from a food whose
    eight nutrient values are each missing, null or a number never makes
    [give_recommendations] raise, and a rule fires exactly when the
    service's value for it is above the rule's threshold. *)
Theorem lookup_then_recommend food_name hg r d f rest s :
  (∀ u h b, requests_post u h b = Ok r) →
  status_code r = 200%Z → json r = Ok (PDict d) →
  d !! "foods" = Some (PList (PDict f :: rest)) →
  f !! "food_name" = Some (PStr s) →
  (∀ x, is_Some (as_num (nf_field f x))) →
  ∃ record advice,
    get_nutrition_info food_name = Ok (PDict record) ∧
    give_recommendations record hg = Ok advice ∧
    ∀ x, fires x advice ↔
         ∃ q, as_num (nf_field f x) = Some q ∧ (rule_threshold x < q)%Q.
Proof.
  intros Hpost Hs Hj Hd Hf Hnum.
  pose proof (get_nutrition_info_first_food food_name r d f rest s Hpost Hs Hj Hd Hf)
    as Hget.
  match type of Hget with _ = Ok (PDict ?m) => set (record := m) in * end.
  exists record.
  assert (Hfield : ∀ x, field record x = nf_field f x).
  { intros x. unfold field, nf_field, py_get.
    destruct x; try reflexivity. simpl. apply py_or_idem. }
  assert (Hn : numeric record = true).
  { unfold numeric. apply forallb_forall. intros x _.
    apply bool_decide_eq_true. rewrite Hfield. apply Hnum. }
  eexists. split; [exact Hget|].
  split; [apply give_recommendations_table, Hn|].
  intros x. split.
  - intros H. apply fires_holds in H. unfold rule_holds, field_num in H.
    rewrite Hfield in H. destruct (Hnum x) as [q Hq]. exists q.
    split; [exact Hq|]. rewrite Hq in H. apply Qgtb_lt, H.
  - intros [q [Hq Hlt]]. apply holds_fires. unfold rule_holds, field_num.
    rewrite Hfield, Hq. apply Qgtb_lt, Hlt.
Qed.

(** *** More on the health goals *)

Lemma str_app_assoc a b c : (a +:+ b) +:+ c = a +:+ (b +:+ c).
Proof.
  induction a as [|x a IH]; [reflexivity|].
  change (String x ((a +:+ b) +:+ c) = String x (a +:+ (b +:+ c))).
  rewrite IH. reflexivity.
Qed.

Lemma occurs_context sub s a b : occurs sub s → occurs sub (a +:+ s +:+ b).
Proof.
  intros [pre [post ->]]. exists (a +:+ pre), (post +:+ b).
  rewrite !str_app_assoc. reflexivity.
Qed.

Lemma lower_ascii_app a b :
  lower_ascii (a +:+ b) = lower_ascii a +:+ lower_ascii b.
Proof.
  induction a as [|x a IH]; [reflexivity|].
  change (String (ascii_lower x) (lower_ascii (a +:+ b))
          = String (ascii_lower x) (lower_ascii a +:+ lower_ascii b)).
  rewrite IH. reflexivity.
Qed.

Lemma is_ascii_app a b : is_ascii (a +:+ b) = is_ascii a && is_ascii b.
Proof.
  induction a as [|x a IH]; [reflexivity|].
  change (((N_of_ascii x <? 128)%N && is_ascii (a +:+ b))
          = ((N_of_ascii x <? 128)%N && is_ascii a) && is_ascii b).
  rewrite IH, andb_assoc. reflexivity.
Qed.

Lemma ascii_lower_idem c : ascii_lower (ascii_lower c) = ascii_lower c.
Proof. destruct c as [[] [] [] [] [] [] [] []]; reflexivity. Qed.

Lemma ascii_lower_ascii c :
  (N_of_ascii c <? 128)%N = true → (N_of_ascii (ascii_lower c) <? 128)%N = true.
Proof. destruct c as [[] [] [] [] [] [] [] []]; intros H; try exact H; reflexivity. Qed.

Lemma lower_ascii_idem s : lower_ascii (lower_ascii s) = lower_ascii s.
Proof.
  induction s as [|c s IH]; [reflexivity|]. simpl. rewrite ascii_lower_idem, IH.
  reflexivity.
Qed.

Lemma lower_ascii_is_ascii s : is_ascii s = true → is_ascii (lower_ascii s) = true.
Proof.
  induction s as [|c s IH]; [reflexivity|]. cbn [is_ascii lower_ascii].
  rewrite !andb_true_iff. intros [Hc Hs]. split; [apply ascii_lower_ascii, Hc | apply IH, Hs].
Qed.

Lemma goal_flag prompt k :
  truthy (py_get (extract_health_goals prompt) k)
  = existsb (λ w, str_in w (lower prompt)) (keywords k).
Proof.
  unfold extract_health_goals, keywords, py_get. cbv zeta.
  destruct (String.eqb_spec k "diabetes") as [-> | H1].
  { rewrite lookup_insert_eq. simpl. rewrite orb_false_r. reflexivity. }
  rewrite lookup_insert_ne by congruence.
  destruct (String.eqb_spec k "weight_loss") as [-> | H2].
  { rewrite lookup_insert_eq. simpl. rewrite orb_false_r. reflexivity. }
  rewrite lookup_insert_ne by congruence.
  destruct (String.eqb_spec k "high_bp") as [-> | H3].
  { rewrite lookup_insert_eq. simpl. rewrite orb_false_r, orb_assoc. reflexivity. }
  rewrite lookup_insert_ne by congruence. reflexivity.
Qed.

(** X14. On ASCII text, putting a prompt inside a longer text never
    clears a flag: a keyword followed by more letters or preceded by a
    negation still sets it. *)
Theorem goals_survive_context (before prompt after k : string) :
  is_ascii before = true → is_ascii prompt = true → is_ascii after = true →
  truthy (py_get (extract_health_goals prompt) k) = true →
  truthy (py_get (extract_health_goals (before +:+ prompt +:+ after)) k) = true.
Proof using lower_on_ascii.
  intros Ha Hp Hb. rewrite !goal_flag.
  rewrite !lower_on_ascii by (rewrite ?is_ascii_app, ?Ha, ?Hp, ?Hb; reflexivity).
  rewrite !lower_ascii_app, !existsb_exists.
  intros [w [Hw Hin]]. exists w. split; [exact Hw|].
  apply str_in_occurs. apply str_in_occurs in Hin. apply occurs_context, Hin.
Qed.

(** X15. On ASCII text the flags do not depend on letter case: the
    lower-cased prompt gets the flags of the prompt. *)
Theorem goals_ignore_case (prompt : string) :
  is_ascii prompt = true →
  extract_health_goals (lower_ascii prompt) = extract_health_goals prompt.
Proof using lower_on_ascii.
  intros Hp. unfold extract_health_goals. cbv zeta.
  rewrite !lower_on_ascii by (try apply lower_ascii_is_ascii; exact Hp).
  rewrite lower_ascii_idem. reflexivity.
Qed.

Lemma message_in_advice holds goals r m :
  m ∈ rule_variants r →
  m ∈ table_advice holds goals ↔ holds r = true ∧ rule_message goals r = m.
Proof.
  intros Hv. split.
  - intros Hin. apply table_advice_elem in Hin.
    destruct Hin as [-> | [r' [Hr' ->]]].
    + exfalso. exact (balanced_no_variant r Hv).
    + apply message_variant in Hv. subst r'. split; [exact Hr' | reflexivity].
  - intros [Hr <-]. rewrite (table_advice_fired holds goals r Hr).
    apply list_elem_of_fmap. exists r. split; [reflexivity|].
    apply list_elem_of_In, filter_In. split; [apply rule_in_table | exact Hr].
Qed.

(** X16. With the flags taken from a prompt, each of the three special
    texts is in the advice exactly when its rule's condition holds and
    one of the flag's keywords occurs in the lower-cased prompt. *)
Theorem prompt_drives_wording (n : gmap string pyval) (prompt : string) :
  numeric n = true →
  ∃ advice,
    give_recommendations n (Some (extract_health_goals prompt)) = Ok advice ∧
    (msg_calories +:+ msg_calories_weight_loss ∈ advice ↔
       rule_holds n RCalories = true ∧
       (occurs "weight loss" (lower prompt) ∨ occurs "losing weight" (lower prompt))) ∧
    (msg_sweetness +:+ msg_sweetness_diabetes ∈ advice ↔
       rule_holds n RSweetness = true ∧ occurs "diabetes" (lower prompt)) ∧
    (msg_sodium +:+ msg_sodium_high_bp ∈ advice ↔
       rule_holds n RSodium = true ∧
       (occurs "blood pressure" (lower prompt) ∨ occurs "bp" (lower prompt)
        ∨ occurs "hypertension" (lower prompt))).
Proof.
  intros Hn. eexists. split; [apply give_recommendations_table, Hn|].
  change (goals_or_empty (Some (extract_health_goals prompt)))
    with (extract_health_goals prompt).
  split; [|split].
  - rewrite (message_in_advice _ _ RCalories)
      by (apply list_elem_of_further, list_elem_of_here).
    cbn [rule_message]. rewrite goal_flag. cbn [keywords existsb String.eqb Ascii.eqb Bool.eqb].
    rewrite orb_false_r. rewrite <- !str_in_occurs, <- orb_true_iff.
    destruct (str_in "weight loss" (lower prompt) || str_in "losing weight" (lower prompt)).
    + split; intros [H _]; (split; [exact H | reflexivity]).
    + split; intros [_ H]; exfalso; [revert H; by_computation | discriminate H].
  - rewrite (message_in_advice _ _ RSweetness) by apply list_elem_of_here.
    cbn [rule_message]. rewrite goal_flag. cbn [keywords existsb String.eqb Ascii.eqb Bool.eqb].
    rewrite orb_false_r. rewrite <- !str_in_occurs.
    destruct (str_in "diabetes" (lower prompt)).
    + split; intros [H _]; (split; [exact H | reflexivity]).
    + split; intros [_ H]; exfalso; [revert H; by_computation | discriminate H].
  - rewrite (message_in_advice _ _ RSodium)
      by (apply list_elem_of_further, list_elem_of_here).
    cbn [rule_message]. rewrite goal_flag. cbn [keywords existsb String.eqb Ascii.eqb Bool.eqb].
    rewrite orb_false_r. rewrite <- !str_in_occurs, <- !orb_true_iff.
    destruct (str_in "blood pressure" (lower prompt)
              || (str_in "bp" (lower prompt) || str_in "hypertension" (lower prompt))).
    + split; intros [H _]; (split; [exact H | reflexivity]).
    + split; intros [_ H]; exfalso; [revert H; by_computation | discriminate H].
Qed.

(** *** More on the sentiment label *)

(** X17. The label tells the sign of the score: it is Positive only for
    a score above zero, Negative only for one below, Neutral only for
    zero, and it is never anything else. *)
Theorem sentiment_label_iff_sign (comment : string) :
  (analyze_sentiment comment = "😊 Positive" ↔ (0 < polarity comment)%Q) ∧
  (analyze_sentiment comment = "😔 Negative" ↔ (polarity comment < 0)%Q) ∧
  (analyze_sentiment comment = "😐 Neutral" ↔ (polarity comment == 0)%Q) ∧
  (analyze_sentiment comment = "😊 Positive"
   ∨ analyze_sentiment comment = "😔 Negative"
   ∨ analyze_sentiment comment = "😐 Neutral").
Proof.
  unfold analyze_sentiment, Qltb. cbv zeta.
  destruct (Qgtb (polarity comment) 0) eqn:Hp.
  - apply Qgtb_lt in Hp. repeat split; try discriminate; auto.
    + intros H. exfalso. exact (Qlt_irrefl _ (Qlt_trans _ _ _ H Hp)).
    + intros H. rewrite H in Hp. exfalso. exact (Qlt_irrefl _ Hp).
  - destruct (Qgtb 0 (polarity comment)) eqn:Hm.
    + apply Qgtb_lt in Hm. repeat split; try discriminate; auto.
      * intros H. exfalso. exact (Qlt_irrefl _ (Qlt_trans _ _ _ H Hm)).
      * intros H. rewrite H in Hm. exfalso. exact (Qlt_irrefl _ Hm).
    + assert (Hz : (polarity comment == 0)%Q).
      { destruct (Q_dec (polarity comment) 0) as [[H | H] | H]; [ | | exact H].
        - apply Qgtb_lt in H. congruence.
        - apply Qgtb_lt in H. congruence. }
      repeat split; try discriminate; auto.
      * intros H. rewrite Hz in H. exfalso. exact (Qlt_irrefl _ H).
      * intros H. rewrite Hz in H. exfalso. exact (Qlt_irrefl _ H).
Qed.

(** *** More on the feedback store *)



Lemma count_cell_present v l : v ∈ l → count_cell v l ≠ 0.
Proof.
  unfold count_cell. induction l as [|x l IH]; intros Hin.
  - apply elem_of_nil in Hin. destruct Hin.
  - simpl. destruct (decide (x = v)) as [-> | Hne].
    + rewrite bool_decide_eq_true_2 by reflexivity. discriminate.
    + rewrite bool_decide_eq_false_2 by exact Hne. apply IH.
      apply elem_of_cons in Hin. destruct Hin as [-> | Hin]; [contradiction | exact Hin].
Qed.






Lemma label_range comment :
  analyze_sentiment comment = "😊 Positive"
  ∨ analyze_sentiment comment = "😔 Negative"
  ∨ analyze_sentiment comment = "😐 Neutral".
Proof.
  unfold analyze_sentiment. cbv zeta.
  destruct (Qgtb (polarity comment) 0); [auto|].
  destruct (Qltb (polarity comment) 0); auto.
Qed.


(** *** The store under what pandas keeps *)

Lemma schema_NoDup : NoDup schema.
Proof. apply (bool_decide_unpack _). vm_compute. exact I. Qed.

Lemma schema_labels_ok : labels_ok schema = true.
Proof. vm_compute. reflexivity. Qed.

Lemma label_is_sentiment_label comment :
  analyze_sentiment comment ∈ sentiment_labels.
Proof.
  unfold sentiment_labels.
  destruct (label_range comment) as [-> | [-> | ->]];
    repeat first [apply list_elem_of_here | apply list_elem_of_further].
Qed.

Lemma save_feedback_concat file e :
  save_feedback file (e_name e) (e_age e) (e_satisfaction e) (e_comment e)
  = Some (to_csv (pd_concat (table_of file)
                            {| columns := schema; rows := [row_of e] |})).
Proof.
  rewrite save_feedback_written. unfold table_of.
  destruct (read_store file); reflexivity.
Qed.

Lemma concat_labels_ok file e :
  match read_store file with
  | Some existing => labels_ok (columns existing) = true
  | None => True
  end →
  labels_ok (columns (pd_concat (table_of file)
                                {| columns := schema; rows := [row_of e] |})) = true.
Proof.
  unfold table_of. destruct (read_store file) as [existing|]; [|reflexivity].
  unfold labels_ok. rewrite !bool_decide_eq_true.
  intros (Hne & Hnd & Hemp). cbn [default from_option id pd_concat columns].
  split; [|split].
  - intros Happ. apply app_eq_nil in Happ. destruct Happ as [H _]. contradiction.
  - apply NoDup_app. split; [exact Hnd|]. split.
    + intros x Hx Hf. apply list_elem_of_In, filter_In in Hf.
      destruct Hf as [_ Hb]. apply bool_decide_eq_true in Hb. contradiction.
    + apply filter_NoDup, schema_NoDup.
  - intros H. apply elem_of_app in H. destruct H as [H | H]; [contradiction|].
    apply list_elem_of_In, filter_In in H. destruct H as [H _].
    apply list_elem_of_In in H. revert H. by_computation.
Qed.

Lemma concat_has_sentiment (table : DataFrame) e :
  "Sentiment" ∈ columns (pd_concat table {| columns := schema; rows := [row_of e] |}).
Proof.
  cbn [pd_concat columns]. apply elem_of_app.
  destruct (decide ("Sentiment" ∈ columns table)) as [Hin | Hout]; [left; exact Hin|].
  right. apply list_elem_of_In, filter_In. split.
  - apply list_elem_of_In. apply (bool_decide_unpack _). vm_compute. exact I.
  - apply bool_decide_eq_true. exact Hout.
Qed.

(** What is in the file after [save_feedback]: the table has the columns
    that were written, one row more than before, and the new entry's
    label in the Sentiment cell of the last row. *)
Lemma after_save file e :
  match read_store file with
  | Some existing => labels_ok (columns existing) = true
  | None => True
  end →
  ∃ content r,
    save_feedback file (e_name e) (e_age e) (e_satisfaction e) (e_comment e)
    = Some content ∧
    columns (read_csv content)
    = columns (pd_concat (table_of file) {| columns := schema; rows := [row_of e] |}) ∧
    length (rows (read_csv content)) = S (length (rows (table_of file))) ∧
    rows (read_csv content) !! length (rows (table_of file)) = Some r ∧
    r !! "Sentiment" = Some (CStr (analyze_sentiment (e_comment e))).
Proof using reread_keeps.
  intros Hok. pose proof (concat_labels_ok file e Hok) as Hlab.
  destruct (reread_keeps _ Hlab) as (Hcols & Hlen & Hcell).
  destruct (Hcell (length (rows (table_of file))) (row_of e) "Sentiment"
              (analyze_sentiment (e_comment e))) as [r [Hr Hs]].
  - cbn [pd_concat rows]. apply list_lookup_middle. reflexivity.
  - apply concat_has_sentiment.
  - apply sentiment_of_row.
  - apply label_is_sentiment_label.
  - eexists. exists r. split; [apply save_feedback_concat|].
    split; [exact Hcols|]. split; [|split; [exact Hr | exact Hs]].
    rewrite Hlen. cbn [pd_concat rows]. rewrite length_app. simpl. lia.
Qed.

Lemma label_counted (table : DataFrame) (i : nat) (r : gmap string cell) label :
  "Sentiment" ∈ columns table →
  rows table !! i = Some r → r !! "Sentiment" = Some (CStr label) →
  ∃ counts k,
    (sentiment ← df_getitem table "Sentiment"; Ok (Some (value_counts sentiment)))
    = Ok (Some counts) ∧
    series_get counts (CStr label) = Some (S k).
Proof.
  intros Hcol Hr Hs. unfold df_getitem. rewrite (bool_decide_eq_true_2 _ Hcol).
  cbn [mbind result_bind].
  set (col := map (λ r0 : gmap string cell, r0 !! "Sentiment") (rows table)).
  assert (Hin : CStr label ∈ omap id col).
  { apply list_elem_of_omap. exists (Some (CStr label)). split; [|reflexivity].
    apply list_elem_of_fmap. exists r. split; [symmetry; exact Hs|].
    apply list_elem_of_lookup. exists i. exact Hr. }
  exists (value_counts col).
  destruct (count_cell (CStr label) (omap id col)) as [|k] eqn:Hk.
  { exfalso. exact (count_cell_present _ _ Hin Hk). }
  exists k. split; [reflexivity|].
  rewrite series_get_value_counts, (bool_decide_eq_true_2 _ Hin), Hk. reflexivity.
Qed.

Lemma graph_after_save file e :
  match read_store file with
  | Some existing => labels_ok (columns existing) = true
  | None => True
  end →
  ∃ counts k,
    show_sentiment_graph
      (save_feedback file (e_name e) (e_age e) (e_satisfaction e) (e_comment e))
    = Ok (Some counts) ∧
    series_get counts (CStr (analyze_sentiment (e_comment e))) = Some (S k).
Proof using reread_keeps.
  intros Hok.
  destruct (after_save file e Hok) as (content & r & -> & Hcols & _ & Hr & Hs).
  unfold show_sentiment_graph. cbv zeta.
  apply (label_counted (read_csv content) (length (rows (table_of file))) r);
    [|exact Hr | exact Hs].
  rewrite Hcols. apply concat_has_sentiment.
Qed.

(** X19. A file whose table has no Sentiment column makes the graph
    raise [KeyError]. Right after a [save_feedback] the graph has counts
    and the new entry's label is counted at least once, whether there
    was no file or a file holding any table, with or without that
    column. This needs of pandas only that reading back keeps column
    labels, row count and sentiment labels. *)
Theorem graph_after_save_has_counts (file : option csv) (e : entry) :
  (∀ content, "Sentiment" ∉ columns (read_csv content) →
     show_sentiment_graph (Some content) = Raise KeyError) ∧
  (match read_store file with
   | Some existing => labels_ok (columns existing) = true
   | None => True
   end →
   ∃ counts k,
     show_sentiment_graph
       (save_feedback file (e_name e) (e_age e) (e_satisfaction e) (e_comment e))
     = Ok (Some counts) ∧
     series_get counts (CStr (analyze_sentiment (e_comment e))) = Some (S k)).
Proof using reread_keeps.
  split.
  - intros content Hout. unfold show_sentiment_graph, df_getitem. cbv zeta.
    rewrite (bool_decide_eq_false_2 _ Hout). reflexivity.
  - apply graph_after_save.
Qed.

(** X20. An append to a file that holds a table keeps the shape of the
    table whatever its columns are: the old column labels stay first and
    in order, all five columns of the schema are there, there is exactly
    one row more, and the last row has the new entry's sentiment label.
    The other cells are not spoken of: pandas does not keep every text
    (see [na_text_lost]). *)
Theorem append_keeps_shape (file : option csv) (existing : DataFrame) (e : entry) :
  read_store file = Some existing → labels_ok (columns existing) = true →
  ∃ table extra r,
    read_store (save_feedback file (e_name e) (e_age e) (e_satisfaction e) (e_comment e))
    = Some table ∧
    columns table = (columns existing ++ extra)%list ∧
    (∀ c, c ∈ schema → c ∈ columns table) ∧
    length (rows table) = S (length (rows existing)) ∧
    rows table !! length (rows existing) = Some r ∧
    r !! "Sentiment" = Some (CStr (analyze_sentiment (e_comment e))).
Proof using reread_keeps.
  intros Hread Hlab.
  destruct (after_save file e) as (content & r & Hsave & Hcols & Hlen & Hr & Hs).
  { rewrite Hread. exact Hlab. }
  unfold table_of in *. rewrite Hread in *. cbn [default from_option id] in *.
  exists (read_csv content). eexists. exists r.
  split; [rewrite Hsave; reflexivity|].
  split; [rewrite Hcols; reflexivity|].
  split; [|split; [exact Hlen | split; [exact Hr | exact Hs]]].
  intros c Hc. rewrite Hcols. cbn [pd_concat columns]. apply elem_of_app.
  destruct (decide (c ∈ columns existing)) as [Hin | Hout]; [left; exact Hin|].
  right. apply list_elem_of_In, filter_In. split.
  - apply list_elem_of_In, Hc.
  - apply bool_decide_eq_true. exact Hout.
Qed.

(** X21. The feedback page after a press on the submit button, with no
    file yet or a file that holds a table: with a name and a comment the
    entry is saved, the page thanks the user and then shows a pie chart
    that already counts the new entry; with the name or the comment
    empty the file is left as it was and the page shows the error and
    then the graph of the file as it was. *)
Theorem submit_outcome (file : option csv) (e : entry) :
  (match read_store file with
   | Some existing => labels_ok (columns existing) = true
   | None => True
   end →
   e_name e ≠ "" → e_comment e ≠ "" →
   ∃ counts k,
     feedback_page file true (e_name e) (e_age e) (e_satisfaction e) (e_comment e)
     = (save_feedback file (e_name e) (e_age e) (e_satisfaction e) (e_comment e),
        Ok [st_success "🎉 Thanks for your feedback!"; st_balloons;
            st_toast "Feedback Submitted Successfully!"; st_pie counts]) ∧
     series_get counts (CStr (analyze_sentiment (e_comment e))) = Some (S k)) ∧
  (e_name e = "" ∨ e_comment e = "" →
   feedback_page file true (e_name e) (e_age e) (e_satisfaction e) (e_comment e)
   = (file,
      counts ← show_sentiment_graph file;
      Ok (st_error "⚠️ Please fill in both Name and Comment." ::
          match counts with
          | Some sentiment_counts => [st_pie sentiment_counts]
          | None => [st_info "No feedback available yet to show sentiment graph."]
          end))).
Proof using reread_keeps.
  split.
  - intros Hok Hname Hcomment.
    destruct (graph_after_save file e Hok) as (counts & k & Hgraph & Hk).
    exists counts, k. split; [|exact Hk].
    unfold feedback_page. simpl truthy.
    apply String.eqb_neq in Hname, Hcomment. rewrite Hname, Hcomment.
    cbn [negb andb]. rewrite Hgraph. reflexivity.
  - intros H. unfold feedback_page. simpl truthy.
    assert (Hb : negb (String.eqb (e_name e) "") && negb (String.eqb (e_comment e) "")
                 = false).
    { destruct H as [-> | ->]; [reflexivity|]. apply andb_false_r. }
    rewrite Hb. destruct (show_sentiment_graph file) as [[c|]|]; reflexivity.
Qed.

Lemma holds_sentiments_step file done e :
  match read_store file with
  | Some table => holds_sentiments table done
  | None => done = []
  end →
  ∃ table',
    read_store (save_feedback file (e_name e) (e_age e) (e_satisfaction e) (e_comment e))
    = Some table' ∧
    holds_sentiments table' (done ++ [e]).
Proof using reread_keeps.
  intros Hinv.
  set (w := pd_concat (table_of file) {| columns := schema; rows := [row_of e] |}).
  assert (Hw : columns w = schema ∧
               length (rows w) = length (done ++ [e]) ∧
               map (λ r : gmap string cell, r !! "Sentiment") (rows w)
               = map (λ e0, Some (CStr (analyze_sentiment (e_comment e0)))) (done ++ [e])).
  { subst w. unfold table_of. destruct (read_store file) as [table|].
    - destruct Hinv as (Hc & Hl & Hs). destruct table as [cols rows0].
      cbn [columns rows] in Hc, Hl, Hs. subst cols.
      cbn [default from_option id]. rewrite concat_schema. cbn [columns rows].
      split; [reflexivity|]. split.
      + rewrite !length_app, Hl. reflexivity.
      + rewrite !map_app, Hs. cbn [map]. rewrite sentiment_of_row. reflexivity.
    - subst done. split; [reflexivity|]. split; [reflexivity|].
      cbn [default from_option id pd_concat rows app map].
      rewrite sentiment_of_row. reflexivity. }
  destruct Hw as (Hwc & Hwl & Hws).
  assert (Hlab : labels_ok (columns w) = true) by (rewrite Hwc; apply schema_labels_ok).
  destruct (reread_keeps w Hlab) as (Hcols & Hlen & Hcell).
  exists (read_csv (to_csv w)). split.
  { rewrite save_feedback_concat. reflexivity. }
  split; [rewrite Hcols; exact Hwc|]. split; [rewrite Hlen; exact Hwl|].
  rewrite <- Hws. apply list_eq. intros i. rewrite !list_lookup_fmap.
  destruct (rows w !! i) as [r|] eqn:Hri.
  - assert (Hg : ∃ e0, r !! "Sentiment" = Some (CStr (analyze_sentiment (e_comment e0)))).
    { pose proof (f_equal (λ l, l !! i) Hws) as Hi. cbn beta in Hi.
      rewrite !list_lookup_fmap, Hri in Hi.
      destruct ((done ++ [e])%list !! i) as [e0|]; [|discriminate Hi].
      exists e0. injection Hi as Hi. exact Hi. }
    destruct Hg as [e0 Hg].
    destruct (Hcell i r "Sentiment" (analyze_sentiment (e_comment e0)) Hri)
      as [r' [Hr' Hs']].
    + rewrite Hwc. apply (bool_decide_unpack _). vm_compute. exact I.
    + exact Hg.
    + apply label_is_sentiment_label.
    + rewrite Hr'. simpl. rewrite Hs', Hg. reflexivity.
  - apply lookup_ge_None_1 in Hri. rewrite <- Hlen in Hri.
    rewrite (lookup_ge_None_2 _ _ Hri). reflexivity.
Qed.

Lemma holds_sentiments_all entries file table done :
  read_store file = Some table → holds_sentiments table done →
  ∃ table',
    read_store (save_all file entries) = Some table' ∧
    holds_sentiments table' (done ++ entries).
Proof using reread_keeps.
  revert file table done.
  induction entries as [|e entries IH]; intros file table done Hread Hinv.
  - exists table. rewrite app_nil_r. split; [exact Hread | exact Hinv].
  - rewrite save_all_cons.
    destruct (holds_sentiments_step file done e) as [t1 [Hread1 Hinv1]].
    { rewrite Hread. exact Hinv. }
    destruct (IH _ t1 (done ++ [e])%list Hread1 Hinv1) as [t2 [Hread2 Hinv2]].
    exists t2. split; [exact Hread2|].
    rewrite <- app_assoc in Hinv2. exact Hinv2.
Qed.

(** X22. What of the submissions does last, whatever pandas does to the
    other cells: after N submissions to a store that did not exist the
    table read back has the five columns of the schema in their order,
    exactly N rows, and in its Sentiment column the labels of the N
    comments in the order of submission. *)
Theorem submissions_keep_count_and_labels (entries : list entry) :
  entries ≠ [] →
  ∃ table,
    read_store (save_all None entries) = Some table ∧
    columns table = schema ∧
    length (rows table) = length entries ∧
    map (λ r : gmap string cell, r !! "Sentiment") (rows table)
    = map (λ e, Some (CStr (analyze_sentiment (e_comment e)))) entries.
Proof using reread_keeps.
  intros Hne. destruct entries as [|e entries]; [contradiction|].
  rewrite save_all_cons.
  destruct (holds_sentiments_step None [] e eq_refl) as [t1 [Hread1 Hinv1]].
  destruct (holds_sentiments_all entries _ t1 [e] Hread1 Hinv1) as [t2 [Hread2 Hinv2]].
  exists t2. split; [exact Hread2|]. exact Hinv2.
Qed.

End Program.

(** ** Instances *)

(** C2. A successful response with an empty list of foods makes
    [get_nutrition_info] raise [IndexError]; it does not return [None]. *)
Theorem empty_foods_raises title app_id api_key food_name :
  get_nutrition_info title app_id api_key post_empty_foods food_name
  = Raise IndexError.
Proof. reflexivity. Qed.

Lemma thresholds_strict_witness :
  numeric at_thresholds = true ∧
  ∃ advice, give_recommendations at_thresholds None = Ok advice ∧
            ¬ fires RCalories advice ∧ ¬ fires RPotassium advice.
Proof.
  split; [reflexivity|].
  destruct (thresholds_strict at_thresholds None eq_refl) as [advice [Hok H]].
  exists advice. split; [exact Hok|]. split.
  - apply (proj1 (H RCalories) 500%Q); reflexivity.
  - apply (proj1 (H RPotassium) 400%Q); reflexivity.
Defined.

Lemma zero_or_one_rule_witness :
  give_recommendations ∅ None = Ok [msg_balanced] ∧
  give_recommendations protein_only None = Ok [msg_protein].
Proof.
  assert (H0 : numeric ∅ = true) by (vm_compute; reflexivity).
  assert (H1 : numeric protein_only = true) by (vm_compute; reflexivity).
  split.
  - apply (proj1 (zero_or_one_rule ∅ None H0)).
    intros r. destruct r; reflexivity.
  - apply (proj2 (zero_or_one_rule protein_only None H1) RProtein).
    + reflexivity.
    + intros r' Hr'. destruct r'; try reflexivity. contradiction Hr'. reflexivity.
Defined.

Lemma calorie_message_forms_witness :
  ∃ rest, give_recommendations scenario_nutrition (Some scenario_goals)
          = Ok ((msg_calories +:+ msg_calories_weight_loss) :: rest).
Proof.
  apply (proj2 (proj2 (calorie_message_forms scenario_nutrition 600%Q
                         eq_refl eq_refl eq_refl))).
  reflexivity.
Defined.

Lemma extract_health_goals_keywords_witness :
  extract_health_goals lower_ascii "I have diabetes and blood pressure issues"
  = <["diabetes" := PBool true]>
    (<["weight_loss" := PBool false]> (<["high_bp" := PBool true]> ∅)).
Proof.
  apply (proj2 (extract_health_goals_keywords lower_ascii (λ s _, eq_refl))).
Defined.

Lemma sentiment_sign_consistent_witness :
  analyze_sentiment sample_polarity "good" = "😊 Positive" ∧
  analyze_sentiment sample_polarity "bad" = "😔 Negative" ∧
  analyze_sentiment sample_polarity "" = "😐 Neutral".
Proof.
  split; [|split].
  - apply (proj1 (sentiment_sign_consistent sample_polarity "good")). reflexivity.
  - apply (proj1 (proj2 (sentiment_sign_consistent sample_polarity "bad"))).
    reflexivity.
  - apply (proj1 (proj2 (proj2 (sentiment_sign_consistent sample_polarity "")))).
    reflexivity.
Defined.


Lemma advice_in_table_order_witness :
  give_recommendations protein_only None = Ok [msg_protein].
Proof.
  assert (H : numeric protein_only = true) by (vm_compute; reflexivity).
  rewrite (advice_in_table_order protein_only None H). reflexivity.
Defined.

Lemma type_error_iff_bad_field_witness :
  give_recommendations text_calories None = Raise TypeError.
Proof.
  apply (proj1 (type_error_iff_bad_field text_calories None) RCalories (PStr "high"));
    reflexivity.
Defined.

Lemma falsy_field_is_absent_witness :
  give_recommendations (<["Calories" := PStr ""]> scenario_nutrition) None
  = give_recommendations (delete "Calories" scenario_nutrition) None.
Proof. apply (falsy_field_is_absent scenario_nutrition None "Calories" (PStr "")). reflexivity. Defined.

Lemma other_keys_ignored_witness :
  give_recommendations (<["Food" := PStr "Pizza"]> scenario_nutrition) None
  = give_recommendations scenario_nutrition None.
Proof.
  apply (other_keys_ignored scenario_nutrition None "Food" (PStr "Pizza")).
  intros r. destruct r; discriminate.
Defined.

Lemma flags_change_wording_only_witness :
  ∃ advice advice',
    give_recommendations scenario_nutrition None = Ok advice ∧
    give_recommendations scenario_nutrition (Some scenario_goals) = Ok advice' ∧
    length advice = length advice' ∧
    ∀ r, fires r advice ↔ fires r advice'.
Proof.
  assert (H : numeric scenario_nutrition = true) by (vm_compute; reflexivity).
  exact (flags_change_wording_only scenario_nutrition None (Some scenario_goals) H).
Defined.

Lemma advice_shape_witness :
  ∃ advice,
    give_recommendations at_thresholds None = Ok advice ∧
    (1 ≤ length advice ≤ 8)%nat ∧ NoDup advice.
Proof.
  assert (H : numeric at_thresholds = true) by (vm_compute; reflexivity).
  destruct (advice_shape at_thresholds None H) as [advice [Hok [Hlen [Hnd _]]]].
  exists advice. split; [exact Hok|]. split; [exact Hlen | exact Hnd].
Defined.

Lemma lookup_not_200_is_none_witness :
  get_nutrition_info id PNone PNone (respond not_found_response) "pizza" = Ok PNone.
Proof.
  apply (lookup_not_200_is_none id PNone PNone (respond not_found_response)
           "pizza" not_found_response).
  - intros u h b. reflexivity.
  - discriminate.
Defined.

Lemma lookup_without_foods_key_is_none_witness :
  get_nutrition_info id PNone PNone (respond no_foods_response) "pizza" = Ok PNone.
Proof.
  apply (lookup_without_foods_key_is_none id PNone PNone (respond no_foods_response)
           "pizza" no_foods_response (<["message" := PStr "no match"]> ∅)).
  - intros u h b. reflexivity.
  - reflexivity.
  - reflexivity.
  - reflexivity.
Defined.

Lemma lookup_record_witness :
  ∃ record,
    get_nutrition_info id PNone PNone (respond apple_response) "apple"
    = Ok (PDict record) ∧
    record !! "Sweetness (g)" = Some (PNum 0) ∧
    record !! "Sodium (mg)" = Some PNone.
Proof.
  destruct (lookup_record id PNone PNone (respond apple_response) "apple"
              apple_response (<["foods" := PList [PDict apple; PNum 7]]> ∅)
              apple [PNum 7] "apple")
    as [record [Hget [_ [_ [Hsweet [_ Hother]]]]]].
  - intros u h b. reflexivity.
  - reflexivity.
  - reflexivity.
  - reflexivity.
  - reflexivity.
  - exists record. split; [exact Hget|]. split.
    + exact Hsweet.
    + apply (Hother RSodium). discriminate.
Defined.

Lemma lookup_result_none_or_full_witness :
  ∃ v, get_nutrition_info id PNone PNone (respond apple_response) "apple" = Ok v ∧
       truthy v = true.
Proof.
  eexists. split; [reflexivity|].
  destruct (lookup_result_none_or_full id PNone PNone (respond apple_response)
              "apple" _ eq_refl) as [H | [record [_ [_ H]]]].
  - discriminate H.
  - exact H.
Defined.

Lemma lookup_bad_name_raises_witness :
  get_nutrition_info id PNone PNone (respond nameless_response) "pizza"
  = Raise KeyError.
Proof.
  apply (proj1 (lookup_bad_name_raises id PNone PNone (respond nameless_response)
                  "pizza" nameless_response (<["foods" := PList [PDict ∅]]> ∅) ∅ []
                  (λ u h b, eq_refl) eq_refl eq_refl eq_refl)).
  reflexivity.
Defined.

Lemma lookup_then_recommend_witness :
  ∃ record advice,
    get_nutrition_info id PNone PNone (respond apple_response) "apple"
    = Ok (PDict record) ∧
    give_recommendations record None = Ok advice ∧
    ¬ fires RPotassium advice.
Proof.
  destruct (lookup_then_recommend id PNone PNone (respond apple_response) "apple"
              None apple_response (<["foods" := PList [PDict apple; PNum 7]]> ∅)
              apple [PNum 7] "apple")
    as [record [advice [Hget [Hadv Hfires]]]].
  - intros u h b. reflexivity.
  - reflexivity.
  - reflexivity.
  - reflexivity.
  - reflexivity.
  - intros x. destruct x; eexists; reflexivity.
  - exists record, advice. split; [exact Hget|]. split; [exact Hadv|].
    intros H. apply Hfires in H. destruct H as [q [Hq Hlt]].
    injection Hq as <-. revert Hlt. apply Qle_not_lt. discriminate.
Defined.

Lemma goals_survive_context_witness :
  truthy (py_get (extract_health_goals lower_ascii
                    ("I do not have " +:+ "Diabetes" +:+ " at all"))
                 "diabetes") = true.
Proof.
  apply (goals_survive_context lower_ascii (λ s _, eq_refl)
           "I do not have " "Diabetes" " at all" "diabetes");
    reflexivity.
Defined.

Lemma goals_ignore_case_witness :
  extract_health_goals lower_ascii (lower_ascii "My BP is high")
  = extract_health_goals lower_ascii "My BP is high".
Proof.
  apply (goals_ignore_case lower_ascii (λ s _, eq_refl) "My BP is high").
  reflexivity.
Defined.

Lemma prompt_drives_wording_witness :
  ∃ advice,
    give_recommendations scenario_nutrition
      (Some (extract_health_goals lower_ascii "Heart rate 80 bpm")) = Ok advice ∧
    msg_sodium +:+ msg_sodium_high_bp ∈ advice.
Proof.
  assert (H : numeric scenario_nutrition = true) by (vm_compute; reflexivity).
  destruct (prompt_drives_wording lower_ascii scenario_nutrition "Heart rate 80 bpm" H)
    as [advice [Hok [_ [_ Hbp]]]].
  exists advice. split; [exact Hok|]. apply Hbp. split; [reflexivity|].
  right. left. exists "heart rate 80 ", "m". reflexivity.
Defined.

Lemma sentiment_label_iff_sign_witness :
  (sample_polarity "bad" < 0)%Q.
Proof.
  apply (proj1 (proj2 (sentiment_label_iff_sign sample_polarity "bad"))).
  reflexivity.
Defined.


(** C9. With a reader that takes the text NA or n/a for a missing value,
    as pandas does, a user named NA and a comment n/a do not come back:
    after the two submissions the first row of the file has no Name, and
    the table read back has neither that Name nor the second Comment. *)
Theorem na_text_lost :
  save_all sample_polarity DataFrame id read_na None [na_ann; bob_na]
  = Some {| columns := schema;
            rows := [delete "Name" (row_of sample_polarity na_ann);
                     row_of sample_polarity bob_na] |} ∧
  read_store DataFrame read_na
    (save_all sample_polarity DataFrame id read_na None [na_ann; bob_na])
  = Some {| columns := schema;
            rows := [delete "Name" (row_of sample_polarity na_ann);
                     delete "Comment" (row_of sample_polarity bob_na)] |} ∧
  read_store DataFrame read_na
    (save_all sample_polarity DataFrame id read_na None [na_ann; bob_na])
  ≠ Some {| columns := schema;
            rows := map (row_of sample_polarity) [na_ann; bob_na] |}.
Proof.
  split; [vm_compute; reflexivity|]. split; [vm_compute; reflexivity|].
  intros H.
  apply (f_equal (λ t : option DataFrame,
                    t ≫= λ df, rows df !! 0%nat ≫= λ r : gmap string cell, r !! "Name"))
    in H.
  vm_compute in H. discriminate H.
Qed.

(** The reader [read_na] keeps what [reread_keeps] asks for. *)
Lemma read_na_keeps df :
  labels_ok (columns df) = true →
  columns (read_na (id df)) = columns df ∧
  length (rows (read_na (id df))) = length (rows df) ∧
  ∀ (i : nat) (r : gmap string cell) c l,
    rows df !! i = Some r → c ∈ columns df →
    r !! c = Some (CStr l) → l ∈ sentiment_labels →
    ∃ r', rows (read_na (id df)) !! i = Some r' ∧ r' !! c = Some (CStr l).
Proof.
  intros _. split; [reflexivity|]. split; [apply length_map|].
  intros i r c l Hr _ Hc Hl. eexists. split.
  - unfold read_na, id. cbn [rows]. rewrite list_lookup_fmap, Hr. reflexivity.
  - rewrite lookup_omap, Hc. simpl.
    assert (Hna : bool_decide (l ∈ na_values) = false).
    { unfold sentiment_labels in Hl.
      repeat (apply elem_of_cons in Hl; destruct Hl as [-> | Hl]; [reflexivity|]).
      apply elem_of_nil in Hl. destruct Hl. }
    rewrite Hna. reflexivity.
Qed.

(** X13. Of the response to the request that was sent, only the first
    item of the foods list counts: two lookups whose 200 responses have
    the same first item give the same result, whatever the rest of the
    lists, the other keys of the responses, the services, the
    credentials and the names that were asked for. *)
Theorem lookup_uses_first_food_only
    title app_id api_key post food_name r d
    app_id' api_key' post' food_name' r' d' x rest rest' :
  post nutritionix_url (request_headers app_id api_key) (request_body food_name)
  = Ok r →
  post' nutritionix_url (request_headers app_id' api_key') (request_body food_name')
  = Ok r' →
  status_code r = 200%Z → status_code r' = 200%Z →
  json r = Ok (PDict d) → json r' = Ok (PDict d') →
  d !! "foods" = Some (PList (x :: rest)) →
  d' !! "foods" = Some (PList (x :: rest')) →
  get_nutrition_info title app_id api_key post food_name
  = get_nutrition_info title app_id' api_key' post' food_name'.
Proof.
  intros Hp Hp' Hs Hs' Hj Hj' Hd Hd'.
  unfold nutritionix_url, request_headers, request_body in Hp, Hp'.
  unfold get_nutrition_info. cbv zeta. rewrite Hp, Hp'.
  cbn [mbind result_bind]. rewrite Hs, Hs', Hj, Hj'.
  cbn [Z.eqb Pos.eqb mbind result_bind py_in py_getitem].
  rewrite Hd, Hd'.
  rewrite !bool_decide_eq_true_2 by (eexists; reflexivity).
  reflexivity.
Qed.

Lemma lookup_uses_first_food_only_witness :
  get_nutrition_info id PNone PNone menu_service "apple"
  = get_nutrition_info id (PStr "key") PNone menu_service "pear".
Proof.
  apply (lookup_uses_first_food_only id PNone PNone menu_service "apple"
           apple_response (<["foods" := PList [PDict apple; PNum 7]]> ∅)
           (PStr "key") PNone menu_service "pear"
           {| status_code := 200;
              json := Ok (PDict (<["foods" := PList [PDict apple; PStr "pear"]]>
                                 (<["total" := PNum 2]> ∅))) |}
           (<["foods" := PList [PDict apple; PStr "pear"]]> (<["total" := PNum 2]> ∅))
           (PDict apple) [PNum 7] [PStr "pear"]);
    reflexivity.
Defined.

Lemma graph_after_save_has_counts_witness :
  show_sentiment_graph DataFrame read_na
    (Some {| columns := ["Name"]; rows := [] |}) = Raise KeyError ∧
  ∃ counts k,
    show_sentiment_graph DataFrame read_na
      (save_feedback sample_polarity DataFrame id read_na
         (Some {| columns := ["Name"]; rows := [] |}) "Bob" 47 2 "n/a")
    = Ok (Some counts) ∧
    series_get counts (CStr "😐 Neutral") = Some (S k).
Proof.
  destruct (graph_after_save_has_counts sample_polarity DataFrame id read_na
              read_na_keeps (Some {| columns := ["Name"]; rows := [] |}) bob_na)
    as [Hbad Hgood].
  split.
  - apply Hbad. apply (bool_decide_eq_false_1 _). reflexivity.
  - apply Hgood. reflexivity.
Defined.

Lemma append_keeps_shape_witness :
  ∃ table extra r,
    read_store DataFrame read_na
      (save_feedback sample_polarity DataFrame id read_na
         (Some {| columns := ["Name"; "Note"]; rows := [{["Note" := CStr "first"]}] |})
         "NA" 31 8 "good")
    = Some table ∧
    columns table = (["Name"; "Note"] ++ extra)%list ∧
    length (rows table) = 2 ∧
    rows table !! 1%nat = Some r ∧
    r !! "Sentiment" = Some (CStr "😊 Positive").
Proof.
  destruct (append_keeps_shape sample_polarity DataFrame id read_na read_na_keeps
              (Some {| columns := ["Name"; "Note"]; rows := [{["Note" := CStr "first"]}] |})
              {| columns := ["Name"; "Note"]; rows := [{["Note" := CStr "first"]}] |}
              na_ann eq_refl eq_refl)
    as (table & extra & r & Hread & Hcols & _ & Hlen & Hr & Hs).
  exists table, extra, r.
  split; [exact Hread|]. split; [exact Hcols|]. split; [exact Hlen|].
  split; [exact Hr | exact Hs].
Defined.

Lemma submit_outcome_witness :
  feedback_page sample_polarity DataFrame id read_na None true "" 47 2 "bad"
  = (None, Ok [st_error "⚠️ Please fill in both Name and Comment.";
               st_info "No feedback available yet to show sentiment graph."]) ∧
  ∃ counts k,
    feedback_page sample_polarity DataFrame id read_na None true "NA" 31 8 "good"
    = (save_feedback sample_polarity DataFrame id read_na None "NA" 31 8 "good",
       Ok [st_success "🎉 Thanks for your feedback!"; st_balloons;
           st_toast "Feedback Submitted Successfully!"; st_pie counts]) ∧
    series_get counts (CStr "😊 Positive") = Some (S k).
Proof.
  split.
  - apply (proj2 (submit_outcome sample_polarity DataFrame id read_na read_na_keeps None
                    {| e_name := ""; e_age := 47; e_satisfaction := 2;
                       e_comment := "bad" |})).
    left. reflexivity.
  - apply (proj1 (submit_outcome sample_polarity DataFrame id read_na read_na_keeps None
                    na_ann)).
    + exact I.
    + discriminate.
    + discriminate.
Defined.

Lemma submissions_keep_count_and_labels_witness :
  ∃ table,
    read_store DataFrame read_na
      (save_all sample_polarity DataFrame id read_na None [na_ann; bob_na])
    = Some table ∧
    columns table = schema ∧
    length (rows table) = 2 ∧
    map (λ r : gmap string cell, r !! "Sentiment") (rows table)
    = [Some (CStr "😊 Positive"); Some (CStr "😐 Neutral")].
Proof.
  apply (submissions_keep_count_and_labels sample_polarity DataFrame id read_na
           read_na_keeps [na_ann; bob_na]).
  discriminate.
Defined.
